(** * jQuery star rating plugin: a shallow embedding of
      [src/jQuery-star-rating.js] and the properties of its behaviour.

    The plugin lives in one container element.  Its state is spread over
    four places, all of which are modelled explicitly:
    - the DOM subtree below the container (class marks on the stars),
    - the element data slot ["plugin_starRating"] of the container,
    - the delegated event handlers bound on the container,
    - the [Plugin] object itself (a heap object, shared between the data
      slot and the closures of the event handlers). *)

From Stdlib Require Import ZArith String Ascii List Bool Lia.
From stdpp Require Import base tactics option list strings.
Import ListNotations.

Set Warnings "-register-all".

Local Open Scope string_scope.
Local Open Scope Z_scope.
Local Open Scope nat_scope.
Local Open Scope list_scope.

(** ** The DOM below the container *)

(** Element nodes only: text nodes are invisible to every jQuery traversal
    the plugin uses ([find], [prevAll], [nextAll], [index]). *)
Inductive node : Type :=
| Elem (tg : string) (cls : list string) (kids : list node).

Definition tag (n : node) : string := match n with Elem t _ _ => t end.
Definition classes (n : node) : list string := match n with Elem _ c _ => c end.
Definition children (n : node) : list node := match n with Elem _ _ k => k end.

(** An element is referred to by the child positions leading to it from
    the container; [[]] is the container itself.  No operation of the
    plugin moves an element, so a path is a stable reference for as long as
    the element stays attached. *)
Abbreviation path := (list nat) (only parsing).

Fixpoint node_at (p : path) (n : node) : option node :=
  match p with
  | [] => Some n
  | i :: q =>
      match children n !! i with
      | Some k => node_at q k
      | None => None
      end
  end.

Fixpoint alter_at (f : node -> node) (p : path) (n : node) : node :=
  match p with
  | [] => f n
  | i :: q => Elem (tag n) (classes n) (alter (alter_at f q) i (children n))
  end.

(** All proper descendants, in document order. *)
Fixpoint descendants_from (i : nat) (ds : list (list path)) : list path :=
  match ds with
  | [] => []
  | d :: r => ([i] :: map (cons i) d) ++ descendants_from (S i) r
  end.

Fixpoint descendants (n : node) : list path :=
  match n with
  | Elem _ _ ks => descendants_from 0 (map descendants ks)
  end.

(** *** Class marks *)

Definition has_class (c : string) (cs : list string) : bool :=
  existsb (String.eqb c) cs.

Definition hasClass (c : string) (n : node) : bool := has_class c (classes n).

(** What [addClass] / [removeClass] do to the class list of one element. *)
Definition add_class (c : string) (cs : list string) : list string :=
  if has_class c cs then cs else cs ++ [c].

Definition remove_class (c : string) (cs : list string) : list string :=
  List.filter (fun x => negb (String.eqb c x)) cs.

Definition set_classes (g : list string -> list string) (n : node) : node :=
  Elem (tag n) (g (classes n)) (children n).

(** *** The jQuery traversals used by the plugin

    A jQuery collection is a list of element references. *)
Abbreviation collection := (list path) (only parsing).

Definition parent (p : path) : path := removelast p.
Definition position (p : path) : nat := List.last p 0.

(** The two selectors that occur in the source: ["li"] / ["ul"] and
    ["li:nth-of-type(k)"]. *)
Inductive selector : Type :=
| Tag (t : string)
| NthOfType (t : string) (k : Z).

(** 1-based rank of the child at position [k] among the children with the
    same tag. *)
Definition type_rank (t : string) (sibs : list node) (k : nat) : nat :=
  S (length (List.filter (fun s => String.eqb (tag s) t) (take k sibs))).

Definition matches (root : node) (sel : selector) (p : path) : bool :=
  match node_at p root with
  | None => false
  | Some n =>
      match sel with
      | Tag t => String.eqb (tag n) t
      | NthOfType t k =>
          String.eqb (tag n) t &&
          match p, node_at (parent p) root with
          | _ :: _, Some par =>
              Z.eqb (Z.of_nat (type_rank t (children par) (position p))) k
          | _, _ => false
          end
      end
  end.

(** [$(w).find(sel)]: the descendants of the element at [w] that match. *)
Definition find (w : path) (sel : selector) (root : node) : collection :=
  match node_at w root with
  | Some n => map (app w) (List.filter (matches n sel) (descendants n))
  | None => []
  end.

Definition prevAll1 (p : path) : collection :=
  map (fun j => parent p ++ [j]) (seq 0 (position p)).

Definition nextAll1 (root : node) (p : path) : collection :=
  match p, node_at (parent p) root with
  | _ :: _, Some par =>
      map (fun j => parent p ++ [j])
          (seq (S (position p)) (length (children par) - S (position p)))
  | _, _ => []
  end.

(** [prevAll()] / [nextAll()] of a collection (the order within the result
    does not matter to the class operations applied to it). *)
Definition prevAll (c : collection) : collection := flat_map prevAll1 c.
Definition nextAll (root : node) (c : collection) : collection :=
  flat_map (nextAll1 root) c.

Definition add (c d : collection) : collection := c ++ d.

Definition addClass (c : string) (coll : collection) (root : node) : node :=
  fold_left (fun t p => alter_at (set_classes (add_class c)) p t) coll root.

Definition removeClass (c : string) (coll : collection) (root : node) : node :=
  fold_left (fun t p => alter_at (set_classes (remove_class c)) p t) coll root.

(** [coll.index(x)]: position of [x] in [coll], or -1. *)
Fixpoint index_from (i : Z) (x : path) (coll : collection) : Z :=
  match coll with
  | [] => (-1)%Z
  | y :: r => if decide (x = y) then i else index_from (i + 1)%Z x r
  end.

Definition index (coll : collection) (x : path) : Z := index_from 0%Z x coll.

(** [$(root).append(n)] and [$(root).html("")]. *)
Definition append (n : node) (root : node) : node :=
  Elem (tag root) (classes root) (children root ++ [n]).

Definition empty_html (root : node) : node :=
  Elem (tag root) (classes root) [].

(** The non-empty prefixes of the path of an event target, deepest first:
    the elements an event bubbles through before it reaches the
    container. *)
Fixpoint prefixes (p : path) : list path :=
  match p with
  | [] => []
  | i :: q => [i] :: map (cons i) (prefixes q)
  end.

Definition bubble (target : path) : list path := rev (prefixes target).

(** ** JavaScript values and completions *)

(** The values the rating can hold: [null] (never set, or reset),
    [undefined] ([set] called without an argument) or a number.  Numbers
    are restricted to integers. *)
Inductive rating : Type :=
| Null
| Undefined
| Num (n : Z).

(** JavaScript numbers are doubles. Two thresholds of that representation
    show in the plugin:
    - an integer prints in decimal digits only below 10^21, and in exponent
      form (["1e+21"]) from there on;
    - [i++] no longer changes [i] at 2^53, so the loop of [_build], which
      counts [i] up to [starCount], ends only for a [starCount] up to
      2^53. *)
Definition exponent_form : Z := 10 ^ 21.
Definition max_starCount : Z := 2 ^ 53.

(** A [starCount] given in the options. The model is restricted to the
    integers for which the constructor returns; for a larger one the call
    never comes back and no page results. *)
Record count_option : Type :=
  Count { count_val : Z;
          count_small : (count_val <=? max_starCount)%Z = true }.

(** The first argument of [$.fn.starRating]. [JObj o] is an options object
    whose [starCount] property is [o] (absent when [None]). *)
Inductive jsval : Type :=
| JUndefined
| JNull
| JNum (n : Z)
| JStr (s : string)
| JObj (starCount_prop : option count_option).

Inductive error : Type :=
| TypeError       (* reading a property of undefined *)
| SelectorError.  (* jQuery: "Syntax error, unrecognized expression" *)

Inductive completion (A : Type) : Type :=
| Normal (a : A)
| Throw (e : error).
Arguments Normal {A} a.
Arguments Throw {A} e.

(** What a call of [$.fn.starRating] returns: the jQuery collection itself
    (for chaining) or a plain value. *)
Inductive retval : Type :=
| Chain
| Value (v : rating).

(** ** The plugin state *)

Definition pluginName : string := "starRating".

Record Options : Type := { starCount : Z }.

(** [$.fn[pluginName].defaults] and [$.fn[pluginName].getters]. *)
Definition defaults : Options := {| starCount := 5 |}.
Definition getters : list string := ["get"].

(** [$.extend({}, defaults, options)]. *)
Definition extend (d : Options) (o : jsval) : Options :=
  match o with
  | JObj (Some k) => {| starCount := count_val k |}
  | _ => d
  end.

(** The fields of a [Plugin] object ([el] and [$el] are the container, which
    is fixed in this model). *)
Record Plugin : Type := { count : rating; options : Options }.

(** Objects are referred to by their position in the heap. *)
Abbreviation addr := nat (only parsing).

Inductive event : Type := Mouseover | Mouseout | Click.

(** A handler bound by [this.$el.on(ev + ".starRating", "li", function…)].
    Every closure created in [_build] captures the variables [thiz] and
    [$wrapper] of that call. *)
Record handler : Type :=
  { h_event : event; h_thiz : addr; h_wrapper : path }.

Record page : Type :=
  { el : node;                 (* the container and what it holds *)
    data : option addr;        (* $.data(el, "plugin_starRating") *)
    events : list handler;     (* handlers bound on el, namespace .starRating *)
    heap : list Plugin }.      (* the Plugin objects created so far *)

Definition with_el (f : node -> node) (s : page) : page :=
  {| el := f (el s); data := data s; events := events s; heap := heap s |}.

(** [thiz.count = c] *)
Definition set_count (thiz : addr) (c : rating) (s : page) : page :=
  {| el := el s; data := data s; events := events s;
     heap := alter (fun p => {| count := c; options := options p |}) thiz (heap s) |}.

Definition get_count (thiz : addr) (s : page) : rating :=
  match heap s !! thiz with
  | Some p => count p
  | None => Undefined
  end.

Definition get_starCount (thiz : addr) (s : page) : Z :=
  match heap s !! thiz with
  | Some p => starCount (options p)
  | None => 0%Z
  end.

(** ** The prototype methods *)

Definition li : node :=
  Elem "li" ["star"] [Elem "i" ["fa"; "fa-star"; "fa-fw"] []].

(** The body of the [for] loop of [_build], run [n] more times: three
    [on] calls and one [push]. *)
Fixpoint build_loop (n : nat) (thiz : addr) (wrapper : path)
    (hs : list handler) (stars : list node) : list handler * list node :=
  match n with
  | O => (hs, stars)
  | S n' =>
      build_loop n' thiz wrapper
        (hs ++ [ {| h_event := Mouseover; h_thiz := thiz; h_wrapper := wrapper |};
                 {| h_event := Mouseout; h_thiz := thiz; h_wrapper := wrapper |};
                 {| h_event := Click; h_thiz := thiz; h_wrapper := wrapper |} ])
        (stars ++ [li])
  end.

(** [$wrapper] is referred to by the place [append] gives it: the last
    child of the container. The loop runs while [i < starCount], that is
    [Z.to_nat starCount] times. *)
Definition _build (this : addr) (s : page) : page :=
  let wrapper := [length (children (el s))] in
  let '(hs, stars) :=
    build_loop (Z.to_nat (get_starCount this s)) this wrapper (events s) [] in
  {| el := append (Elem "ul" ["star-rating"] stars) (el s);
     data := data s; events := hs; heap := heap s |}.

Definition _init (this : addr) (s : page) : page := _build this s.

(** [new Plugin(element, options)]: allocates the object, then runs
    [_init]. Returns the reference to the new object. *)
Definition new_Plugin (o : jsval) (s : page) : addr * page :=
  let this := length (heap s) in
  let s1 := {| el := el s; data := data s; events := events s;
               heap := heap s ++ [ {| count := Null; options := extend defaults o |} ] |} in
  (this, _init this s1).

(** [off(".starRating")], [removeData()], [html("")]. *)
Definition destroy (this : addr) (s : page) : page :=
  {| el := empty_html (el s); data := None; events := []; heap := heap s |}.

(** The selector string ["li:nth-of-type(" + count + ")"]. jQuery accepts
    it when [count] prints in decimal digits, and rejects it with an error
    when [count] prints in exponent form (["li:nth-of-type(1e+21)"]) or is
    [undefined] or [null]. *)
Definition nth_of_type_li (c : rating) : completion selector :=
  match c with
  | Num n =>
      if (Z.abs n <? exponent_form)%Z
      then Normal (NthOfType "li" n)
      else Throw SelectorError
  | _ => Throw SelectorError
  end.

Definition _setStarCount (this : addr) (c : rating) (s : page) : completion page :=
  match nth_of_type_li c with
  | Throw e => Throw e
  | Normal sel =>
      let lastStar := find [] sel (el s) in
      let s1 := with_el (addClass "selected" (add (prevAll lastStar) lastStar)) s in
      let s2 := with_el (removeClass "selected" (nextAll (el s1) lastStar)) s1 in
      Normal (set_count this c s2)
  end.

Definition _resetStarCount (this : addr) (s : page) : page :=
  let s1 := with_el (fun e => removeClass "selected" (find [] (Tag "li") e) e) s in
  set_count this Null s1.

Definition _disableStarCount (this : addr) (s : page) : page :=
  with_el (fun e => addClass "disable" (find [] (Tag "ul") e) e) s.

Definition _enableStarCount (this : addr) (s : page) : page :=
  with_el (fun e => removeClass "disable" (find [] (Tag "ul") e) e) s.

Definition set (this : addr) (c : rating) (s : page) : completion page :=
  _setStarCount this c s.
Definition reset (this : addr) (s : page) : page := _resetStarCount this s.
Definition get (this : addr) (s : page) : rating := get_count this s.
Definition disable (this : addr) (s : page) : page := _disableStarCount this s.
Definition enable (this : addr) (s : page) : page := _enableStarCount this s.

(** ** The event handlers of [_build] *)

(** [this] is the [li] the delegated handler runs for. *)
Definition run_handler (h : handler) (this : path) (s : page) : page :=
  match h_event h with
  | Mouseover =>
      with_el (addClass "hover" (add (prevAll [this]) [this])) s
  | Mouseout =>
      let s1 := with_el (removeClass "hover" (add (prevAll [this]) [this])) s in
      with_el (fun e => removeClass "hover" (add (nextAll e [this]) [this]) e) s1
  | Click =>
      let s1 := with_el (addClass "selected" (add (prevAll [this]) [this])) s in
      let s2 := with_el (fun e => removeClass "selected" (nextAll e [this]) e) s1 in
      set_count (h_thiz h)
        (Num (index (find (h_wrapper h) (Tag "li") (el s2)) this + 1)) s2
  end.

Definition event_eqb (a b : event) : bool :=
  match a, b with
  | Mouseover, Mouseover | Mouseout, Mouseout | Click, Click => true
  | _, _ => false
  end.

(** An event of type [ev] on the element at [target]: for every [li] from
    the target up to (not including) the container, every handler bound
    for [ev] runs, in the order of binding. An event on an element that
    does not exist does not happen. *)
Definition trigger (ev : event) (target : path) (s : page) : page :=
  match node_at target (el s) with
  | None => s
  | Some _ =>
      let matched := List.filter (matches (el s) (Tag "li")) (bubble target) in
      let bound := List.filter (fun h => event_eqb (h_event h) ev) (events s) in
      fold_left
        (fun s1 this => fold_left (fun s2 h => run_handler h this s2) bound s1)
        matched s
  end.

(** ** The public entry point [$.fn.starRating] *)

(** The members of [Plugin.prototype]. *)
Inductive method : Type :=
| M_init | Mdestroy | Mset | Mreset | Mget | Mdisable | Menable
| M_build | M_setStarCount | M_resetStarCount
| M_disableStarCount | M_enableStarCount.

Definition prototype : list (string * method) :=
  [ ("_init", M_init); ("destroy", Mdestroy); ("set", Mset);
    ("reset", Mreset); ("get", Mget); ("disable", Mdisable);
    ("enable", Menable); ("_build", M_build);
    ("_setStarCount", M_setStarCount); ("_resetStarCount", M_resetStarCount);
    ("_disableStarCount", M_disableStarCount);
    ("_enableStarCount", M_enableStarCount) ].

(** [instance[name]] when it is a function. The own properties ([el],
    [$el], [count], [options]) are not functions; the functions inherited
    from [Object.prototype] do nothing to the page and are left out. *)
Definition member (name : string) : option method :=
  snd <$> List.find (fun e => String.eqb (fst e) name) prototype.

(** The first parameter of a method called with the argument list [args]. *)
Definition arg0 (args : list Z) : rating :=
  match args with
  | [] => Undefined
  | n :: _ => Num n
  end.

(** [instance[name].apply(instance, args)]: the returned value and the page
    afterwards. Every method but [get] returns [undefined]. *)
Definition apply_method (m : method) (this : addr) (args : list Z) (s : page)
  : completion (rating * page) :=
  match m with
  | M_init => Normal (Undefined, _init this s)
  | Mdestroy => Normal (Undefined, destroy this s)
  | Mset =>
      match set this (arg0 args) s with
      | Normal s' => Normal (Undefined, s')
      | Throw e => Throw e
      end
  | Mreset => Normal (Undefined, reset this s)
  | Mget => Normal (get this s, s)
  | Mdisable => Normal (Undefined, disable this s)
  | Menable => Normal (Undefined, enable this s)
  | M_build => Normal (Undefined, _build this s)
  | M_setStarCount =>
      match _setStarCount this (arg0 args) s with
      | Normal s' => Normal (Undefined, s')
      | Throw e => Throw e
      end
  | M_resetStarCount => Normal (Undefined, _resetStarCount this s)
  | M_disableStarCount => Normal (Undefined, _disableStarCount this s)
  | M_enableStarCount => Normal (Undefined, _enableStarCount this s)
  end.

(** [options[0] === "_"] *)
Definition underscore (name : string) : bool :=
  match name with
  | String c _ => Ascii.eqb c "_"%char
  | EmptyString => false
  end.

(** [$(el).starRating(o, args…)] on the one container of the page. The
    result is the completion of the call and the page it leaves; an
    exception leaves the page as it was when it was raised. *)
Definition starRating (o : jsval) (args : list Z) (s : page)
  : completion retval * page :=
  match o with
  | JUndefined | JNull | JObj _ =>
      match data s with
      | Some _ => (Normal Chain, s)
      | None =>
          let '(instance, s1) := new_Plugin o s in
          (Normal Chain,
           {| el := el s1; data := Some instance;
              events := events s1; heap := heap s1 |})
      end
  | JStr name =>
      if negb (underscore name) && negb (String.eqb name "init") then
        if (length args =? 0) && existsb (String.eqb name) getters then
          match data s with
          | None => (Throw TypeError, s)
          | Some instance =>
              match member name with
              | None => (Throw TypeError, s)
              | Some m =>
                  match apply_method m instance args s with
                  | Normal (v, s') => (Normal (Value v), s')
                  | Throw e => (Throw e, s)
                  end
              end
          end
        else
          match data s with
          | None => (Normal Chain, s)
          | Some instance =>
              match member name with
              | None => (Normal Chain, s)
              | Some m =>
                  match apply_method m instance args s with
                  | Normal (_, s') => (Normal Chain, s')
                  | Throw e => (Throw e, s)
                  end
              end
          end
      else (Normal (Value Undefined), s)
  | JNum _ => (Normal (Value Undefined), s)
  end.

(** ** Pages over time *)

(** A container before the plugin has touched it. *)
Definition fresh (c : node) : page :=
  {| el := c; data := None; events := []; heap := [] |}.

(** What can happen to a page: a call of [starRating], or a pointer event
    on one of the elements inside the container. *)
Inductive op : Type :=
| Call (o : jsval) (args : list Z)
| Event (ev : event) (target : path).

Definition step (x : op) (s : page) : page :=
  match x with
  | Call o args => snd (starRating o args s)
  | Event ev target => trigger ev target s
  end.

Definition run (ops : list op) (s : page) : page :=
  fold_left (fun s1 x => step x s1) ops s.

(** The documented calls. *)
Definition create (o : jsval) (s : page) : page := snd (starRating o [] s).
Definition call_set (n : Z) (s : page) : page := snd (starRating (JStr "set") [n] s).
Definition call_reset (s : page) : page := snd (starRating (JStr "reset") [] s).
Definition call_disable (s : page) : page := snd (starRating (JStr "disable") [] s).
Definition call_enable (s : page) : page := snd (starRating (JStr "enable") [] s).
Definition call_destroy (s : page) : page := snd (starRating (JStr "destroy") [] s).
Definition call_get (s : page) : completion retval := fst (starRating (JStr "get") [] s).
Definition click (target : path) (s : page) : page := trigger Click target s.

(** ** Observing the widget *)

(** The [ul] built by [_build], as the bound handlers know it. *)
Definition wrapper (s : page) : option path := h_wrapper <$> head (events s).

(** The stars: the children of that [ul]. A widget without handlers was
    built with no stars. *)
Definition stars (s : page) : list node :=
  match wrapper s with
  | Some w =>
      match node_at w (el s) with
      | Some u => children u
      | None => []
      end
  | None => []
  end.

Definition marks (c : string) (s : page) : list bool := map (hasClass c) (stars s).

(** The [i]-th star, counting from 1, and the icon inside it. *)
Definition star (i : nat) (s : page) : path :=
  match wrapper s with
  | Some w => w ++ [i - 1]
  | None => []
  end.
Definition star_icon (i : nat) (s : page) : path := star i s ++ [0].

(** [starCount] of the instance in the data slot; 0 without one. *)
Definition star_count (s : page) : Z :=
  match data s with
  | Some a => get_starCount a s
  | None => 0%Z
  end.

Definition initialized (s : page) : bool :=
  match data s with Some _ => true | None => false end.

Definition div (ks : list node) : node := Elem "div" [] ks.

(** The shape of a subtree: tags only, class marks left out. *)
Inductive skel : Type :=
| Skel (t : string) (kids : list skel).

Fixpoint skeleton (n : node) : skel :=
  match n with
  | Elem t _ ks => Skel t (map skeleton ks)
  end.

(** [strip q p]: what is left of [p] below [q], when [q] is a prefix of [p]. *)
Fixpoint strip (q p : path) : option path :=
  match q, p with
  | [], _ => Some p
  | i :: q', j :: p' => if decide (i = j) then strip q' p' else None
  | _ :: _, [] => None
  end.

(** Whether the element at [q] carries the class [c]. *)
Definition marked (c : string) (q : path) (root : node) : bool :=
  match node_at q root with
  | Some n => hasClass c n
  | None => false
  end.

(** A class operation [g] applied to every element of a collection:
    [addClass c] is [on_collection (add_class c)], [removeClass c] is
    [on_collection (remove_class c)]. *)
Definition on_collection (g : list string -> list string) (coll : collection)
    (t : node) : node :=
  fold_left (fun t p => alter_at (set_classes g) p t) coll t.

(** ** The invariant of an initialized widget *)

Definition star_skel : skel := Skel "li" [Skel "i" []].

(** The handlers [_build] binds for [n] stars. *)
Definition handlers_for (n : nat) (a : addr) (w : path) : list handler :=
  concat (replicate n
    [ {| h_event := Mouseover; h_thiz := a; h_wrapper := w |};
      {| h_event := Mouseout; h_thiz := a; h_wrapper := w |};
      {| h_event := Click; h_thiz := a; h_wrapper := w |} ]).

(** The page holds a widget: the data slot refers to the live object [a],
    every bound handler closes over [a] and the list at child position
    [w], and that list is a [ul] of [n] stars, [n] being the [starCount]
    of the options. *)
Record widget (a : addr) (w n : nat) (s : page) : Prop :=
  { wd_data : data s = Some a;
    wd_heap : is_Some (heap s !! a);
    wd_count : Z.to_nat (get_starCount a s) = n;
    wd_events : events s = handlers_for n a [w];
    wd_wrapper :
      skeleton <$> node_at [w] (el s) = Some (Skel "ul" (replicate n star_skel)) }.

Definition wf (s : page) : Prop :=
  match data s with
  | None => events s = []
  | Some a => exists w n, widget a w n s
  end.

(** The first argument of [starRating] asks for creation:
    [options === undefined || typeof options === "object"]. *)
Definition is_options (o : jsval) : bool :=
  match o with
  | JUndefined | JNull | JObj _ => true
  | JStr _ | JNum _ => false
  end.

(** The members of the prototype whose name does not start with an
    underscore. *)
Definition public (m : method) : bool :=
  match m with
  | Mdestroy | Mset | Mreset | Mget | Mdisable | Menable => true
  | _ => false
  end.

(** The page right after a successful creation with options [o]. *)
Definition created (o : jsval) (s : page) : page :=
  let n := Z.to_nat (starCount (extend defaults o)) in
  {| el := append (Elem "ul" ["star-rating"] (replicate n li)) (el s);
     data := Some (length (heap s));
     events := events s ++ handlers_for n (length (heap s)) [length (children (el s))];
     heap := heap s ++ [ {| count := Null; options := extend defaults o |} ] |}.

(** Among the [n] children of the element at child position [w], the
    first [k] carry the class ["selected"] and the others do not. *)
Definition selected_upto (k w n : nat) (t : node) : Prop :=
  forall x, x < n -> marked "selected" [w; x] t = (x <? k).

(** ** Using the widget as documented *)

(** The operations on a widget: creation, the commands [set], [reset],
    [disable], [enable], and a click on the [i]-th star (on the [li], or on
    the icon inside it when [icon] is set). *)
Inductive widget_op : Type :=
| WCreate (o : jsval)
| WSet (n : Z)
| WReset
| WClick (i : nat) (icon : bool)
| WDisable
| WEnable.

Definition wstep (x : widget_op) (s : page) : page :=
  match x with
  | WCreate o => create o s
  | WSet n => call_set n s
  | WReset => call_reset s
  | WClick i icon => click (if icon then star_icon i s else star i s) s
  | WDisable => call_disable s
  | WEnable => call_enable s
  end.

(** The operation is used within its documented range: creation with
    options (or none), [set] with a rating in [1, starCount] once there is
    a widget, a click on a star that exists. *)
Definition in_range (x : widget_op) (s : page) : bool :=
  match x with
  | WCreate o => is_options o
  | WSet n => negb (initialized s) || ((1 <=? n)%Z && (n <=? star_count s)%Z)
  | WClick i _ => (1 <=? Z.of_nat i)%Z && (Z.of_nat i <=? star_count s)%Z
  | WReset | WDisable | WEnable => true
  end.

(** Runs the operations as long as each is within range. *)
Fixpoint wrun (xs : list widget_op) (s : page) : option page :=
  match xs with
  | [] => Some s
  | x :: r => if in_range x s then wrun r (wstep x s) else None
  end.

(** The selected stars are the first [selected] ones, and [selected] is
    unset or within [1, starCount]. *)
Definition prefix_invariant (s : page) : Prop :=
  initialized s = true ->
  match call_get s with
  | Normal (Value Null) =>
      marks "selected" s = replicate (length (stars s)) false
  | Normal (Value (Num k)) =>
      (1 <= k <= star_count s)%Z /\
      marks "selected" s =
        replicate (Z.to_nat k) true ++
        replicate (length (stars s) - Z.to_nat k) false
  | _ => False
  end.

(** The same, on the representation. *)
Definition rating_ok (a : addr) (w n : nat) (s : page) : Prop :=
  match get_count a s with
  | Null => selected_upto 0 w n (el s)
  | Num k => (1 <= k <= Z.of_nat n)%Z /\ selected_upto (Z.to_nat k) w n (el s)
  | Undefined => False
  end.

Definition good (s : page) : Prop :=
  match data s with
  | None => events s = []
  | Some a => exists w n, widget a w n s /\ rating_ok a w n s
  end.

(** ** What an operation may touch *)

(** The name under which a method sits in the prototype. *)
Definition method_name (m : method) : string :=
  match m with
  | M_init => "_init" | Mdestroy => "destroy" | Mset => "set"
  | Mreset => "reset" | Mget => "get" | Mdisable => "disable"
  | Menable => "enable" | M_build => "_build"
  | M_setStarCount => "_setStarCount" | M_resetStarCount => "_resetStarCount"
  | M_disableStarCount => "_disableStarCount"
  | M_enableStarCount => "_enableStarCount"
  end.

(** The operations that build or tear down: a creation call and the
    command ["destroy"]. *)
Definition structural (x : op) : bool :=
  match x with
  | Call (JStr name) _ => String.eqb name "destroy"
  | Call o _ => is_options o
  | Event _ _ => false
  end.

(** The one class an operation writes: ["hover"] for the pointer moving
    in and out, ["disable"] for the two commands of that name,
    ["selected"] for the rest. *)
Definition touches (x : op) : string :=
  match x with
  | Event Click _ => "selected"
  | Event _ _ => "hover"
  | Call (JStr name) _ =>
      if String.eqb name "disable" || String.eqb name "enable"
      then "disable" else "selected"
  | Call _ _ => "selected"
  end.

(** Every instance was built with a [starCount] its constructor could
    finish the loop for. *)
Definition small (s : page) : Prop :=
  forall a, (get_starCount a s <= max_starCount)%Z.

(** * Properties of the DOM operations *)

Section Dom.

Implicit Types (p q : path) (t n : node) (g : list string -> list string).

Lemma tag_set_classes g n : tag (set_classes g n) = tag n.
Proof. reflexivity. Qed.

Lemma children_set_classes g n : children (set_classes g n) = children n.
Proof. reflexivity. Qed.

Lemma node_at_alter g : forall q p t,
  node_at q (alter_at (set_classes g) p t) =
  match strip q p with
  | Some r => alter_at (set_classes g) r <$> node_at q t
  | None => node_at q t
  end.
Proof.
  induction q as [|i q IH]; intros p t; simpl.
  - reflexivity.
  - destruct p as [|j p]; simpl.
    + reflexivity.
    + destruct (decide (i = j)) as [->|Hne].
      * rewrite list_lookup_alter_eq.
        destruct (children t !! j) as [k|]; simpl; [apply IH|].
        destruct (strip q p); reflexivity.
      * rewrite list_lookup_alter_ne by congruence.
        reflexivity.
Qed.

Lemma strip_nil_iff q p : strip q p = Some [] <-> q = p.
Proof.
  revert p; induction q as [|i q IH]; intros [|j p]; simpl.
  - split; reflexivity.
  - split; intros H; discriminate H.
  - split; intros H; discriminate H.
  - destruct (decide (i = j)) as [->|Hne].
    + rewrite IH. split; intros H; [subst; reflexivity | injection H; auto].
    + split; intros H; [discriminate H | injection H; intros; contradiction].
Qed.

Lemma tag_alter_at g p t : tag (alter_at (set_classes g) p t) = tag t.
Proof. destruct p; reflexivity. Qed.

Lemma classes_alter_at_cons g i p t :
  classes (alter_at (set_classes g) (i :: p) t) = classes t.
Proof. reflexivity. Qed.

Lemma length_children_alter_at g p t :
  length (children (alter_at (set_classes g) p t)) = length (children t).
Proof. destruct p; simpl; [reflexivity | apply length_alter]. Qed.

Lemma skeleton_alter_at g : forall p t,
  skeleton (alter_at (set_classes g) p t) = skeleton t.
Proof.
  induction p as [|i p IH]; intros [tg cs ks]; simpl; [reflexivity|].
  f_equal. revert i. induction ks as [|k ks IHks]; intros [|i]; simpl;
    try reflexivity.
  - f_equal. apply IH.
  - f_equal. apply IHks.
Qed.

(** One class operation at [p], seen from [q]. *)
Lemma marked_alter_at g c q p t :
  marked c q (alter_at (set_classes g) p t) =
  match node_at q t with
  | Some n => has_class c (if decide (q = p) then g (classes n) else classes n)
  | None => false
  end.
Proof.
  unfold marked. rewrite node_at_alter.
  destruct (strip q p) as [r|] eqn:Hs.
  - destruct (node_at q t) as [n|]; simpl; [|reflexivity].
    destruct r as [|i r].
    + apply strip_nil_iff in Hs. rewrite decide_True by assumption. reflexivity.
    + rewrite decide_False; [reflexivity|].
      intros <-. assert (strip q q = Some []) as E by (apply strip_nil_iff; reflexivity).
      congruence.
  - destruct (node_at q t) as [n|]; [|reflexivity].
    rewrite decide_False; [reflexivity|].
    intros <-. assert (strip q q = Some []) as E by (apply strip_nil_iff; reflexivity).
    congruence.
Qed.

Lemma node_at_alter_is_Some g q p t :
  is_Some (node_at q (alter_at (set_classes g) p t)) <-> is_Some (node_at q t).
Proof.
  rewrite node_at_alter. destruct (strip q p); [|reflexivity].
  rewrite fmap_is_Some. reflexivity.
Qed.

(** *** Class lists *)

Lemma has_class_add_same c cs : has_class c (add_class c cs) = true.
Proof.
  unfold add_class. destruct (has_class c cs) eqn:E; [assumption|].
  unfold has_class. rewrite existsb_app. simpl. rewrite String.eqb_refl.
  apply orb_true_iff. right. reflexivity.
Qed.

Lemma has_class_add_other c c' cs :
  c' <> c -> has_class c' (add_class c cs) = has_class c' cs.
Proof.
  intros Hne. unfold add_class. destruct (has_class c cs); [reflexivity|].
  unfold has_class. rewrite existsb_app. simpl.
  destruct (String.eqb_spec c' c); [contradiction|].
  rewrite !orb_false_r. reflexivity.
Qed.

Lemma has_class_remove_same c cs : has_class c (remove_class c cs) = false.
Proof.
  unfold has_class, remove_class. induction cs as [|x cs IH]; simpl; [reflexivity|].
  destruct (String.eqb c x) eqn:E; simpl; [assumption|].
  rewrite E. assumption.
Qed.

Lemma has_class_remove_other c c' cs :
  c' <> c -> has_class c' (remove_class c cs) = has_class c' cs.
Proof.
  intros Hne. unfold has_class, remove_class.
  induction cs as [|x cs IH]; simpl; [reflexivity|].
  destruct (String.eqb_spec c x) as [->|Hx]; simpl.
  - destruct (String.eqb_spec c' x); [contradiction|]. assumption.
  - rewrite IH. reflexivity.
Qed.

(** *** Class operations on collections *)

Lemma skeleton_on_collection g coll : forall t,
  skeleton (on_collection g coll t) = skeleton t.
Proof.
  induction coll as [|p coll IH]; intros t; simpl; [reflexivity|].
  unfold on_collection in *. simpl. rewrite IH. apply skeleton_alter_at.
Qed.

Lemma tag_on_collection g coll : forall t, tag (on_collection g coll t) = tag t.
Proof.
  induction coll as [|p coll IH]; intros t; simpl; [reflexivity|].
  unfold on_collection in *. simpl. rewrite IH. apply tag_alter_at.
Qed.

Lemma length_children_on_collection g coll : forall t,
  length (children (on_collection g coll t)) = length (children t).
Proof.
  induction coll as [|p coll IH]; intros t; simpl; [reflexivity|].
  unfold on_collection in *. simpl. rewrite IH. apply length_children_alter_at.
Qed.

Lemma is_Some_on_collection g q coll : forall t,
  is_Some (node_at q (on_collection g coll t)) <-> is_Some (node_at q t).
Proof.
  induction coll as [|p coll IH]; intros t; simpl; [reflexivity|].
  unfold on_collection in *. simpl. rewrite IH. apply node_at_alter_is_Some.
Qed.

Lemma marked_on_collection_notin g c q coll : forall t,
  ~ In q coll -> marked c q (on_collection g coll t) = marked c q t.
Proof.
  induction coll as [|p coll IH]; intros t Hn; simpl; [reflexivity|].
  unfold on_collection in *. simpl. rewrite IH.
  - rewrite marked_alter_at. unfold marked.
    destruct (node_at q t); [|reflexivity].
    rewrite decide_False; [reflexivity|]. intros ->. apply Hn. left. reflexivity.
  - intros H. apply Hn. right. assumption.
Qed.

Lemma marked_on_collection_other g c q coll :
  (forall cs, has_class c (g cs) = has_class c cs) ->
  forall t, marked c q (on_collection g coll t) = marked c q t.
Proof.
  intros Hg. induction coll as [|p coll IH]; intros t; simpl; [reflexivity|].
  unfold on_collection in *. simpl. rewrite IH, marked_alter_at. unfold marked.
  destruct (node_at q t) as [n|]; [|reflexivity].
  destruct (decide (q = p)); [apply Hg | reflexivity].
Qed.

Lemma marked_on_collection_in g c b q coll :
  (forall cs, has_class c (g cs) = b) ->
  forall t, In q coll -> is_Some (node_at q t) ->
  marked c q (on_collection g coll t) = b.
Proof.
  intros Hg. induction coll as [|p coll IH]; intros t Hin Hq; [destruct Hin|].
  change (on_collection g (p :: coll) t)
    with (on_collection g coll (alter_at (set_classes g) p t)).
  destruct (In_dec (fun a b : path => decide (a = b)) q coll) as [Hr|Hr].
  - apply IH; [assumption|]. apply node_at_alter_is_Some. assumption.
  - destruct Hin as [->|Hin]; [|contradiction].
    rewrite marked_on_collection_notin by assumption.
    rewrite marked_alter_at. destruct Hq as [n ->].
    rewrite decide_True by reflexivity. apply Hg.
Qed.

Lemma marked_addClass_in c q coll t :
  In q coll -> is_Some (node_at q t) -> marked c q (addClass c coll t) = true.
Proof. apply marked_on_collection_in, has_class_add_same. Qed.

Lemma marked_addClass_notin c c' q coll t :
  ~ In q coll -> marked c' q (addClass c coll t) = marked c' q t.
Proof. apply marked_on_collection_notin. Qed.

Lemma marked_addClass_other c c' q coll t :
  c' <> c -> marked c' q (addClass c coll t) = marked c' q t.
Proof.
  intros Hne. apply marked_on_collection_other.
  intros cs. apply has_class_add_other. assumption.
Qed.

Lemma marked_removeClass_in c q coll t :
  In q coll -> marked c q (removeClass c coll t) = false.
Proof.
  intros Hin. destruct (node_at q t) as [n|] eqn:E.
  - apply marked_on_collection_in; [apply has_class_remove_same|assumption|].
    rewrite E. eexists; reflexivity.
  - unfold marked.
    destruct (node_at q (removeClass c coll t)) as [n|] eqn:E'; [|reflexivity].
    assert (is_Some (node_at q t)) as [? ?]; [|congruence].
    apply (is_Some_on_collection (remove_class c) q coll t).
    unfold removeClass in E'. unfold on_collection. rewrite E'. eexists; reflexivity.
Qed.

Lemma marked_removeClass_notin c c' q coll t :
  ~ In q coll -> marked c' q (removeClass c coll t) = marked c' q t.
Proof. apply marked_on_collection_notin. Qed.

Lemma marked_removeClass_other c c' q coll t :
  c' <> c -> marked c' q (removeClass c coll t) = marked c' q t.
Proof.
  intros Hne. apply marked_on_collection_other.
  intros cs. apply has_class_remove_other. assumption.
Qed.

(** *** The shape decides what a path finds *)

Lemma skeleton_tag t t' : skeleton t = skeleton t' -> tag t = tag t'.
Proof. destruct t, t'; simpl; congruence. Qed.

Lemma skeleton_children t t' :
  skeleton t = skeleton t' -> map skeleton (children t) = map skeleton (children t').
Proof. destruct t, t'; simpl; congruence. Qed.

Lemma skeleton_node_at : forall q t t',
  skeleton t = skeleton t' ->
  skeleton <$> node_at q t = skeleton <$> node_at q t'.
Proof.
  induction q as [|i q IH]; intros t t' E; simpl.
  - rewrite E. reflexivity.
  - pose proof (skeleton_children _ _ E) as Ec.
    assert (skeleton <$> children t !! i = skeleton <$> children t' !! i) as Ei.
    { rewrite <- !list_lookup_fmap. unfold fmap, list_fmap. change (@List.map) with (@map).
      fold (map skeleton (children t)). rewrite Ec. reflexivity. }
    destruct (children t !! i) as [k|], (children t' !! i) as [k'|];
      simpl in Ei; try discriminate; [|reflexivity].
    apply IH. congruence.
Qed.

(** *** Membership in the traversals *)

Lemma in_descendants_from : forall (ds : list (list path)) i j d,
  ds !! j = Some d ->
  In [i + j] (descendants_from i ds) /\
  (forall q, In q d -> In ((i + j) :: q) (descendants_from i ds)).
Proof.
  induction ds as [|d0 ds IH]; intros i j d Hj; [discriminate Hj|].
  destruct j as [|j]; simpl in Hj |- *.
  - injection Hj as ->. rewrite Nat.add_0_r. split.
    + left. reflexivity.
    + intros q Hq. right. apply in_or_app. left. apply in_map. assumption.
  - destruct (IH (S i) j d Hj) as [H1 H2].
    replace (i + S j) with (S i + j) by lia. split.
    + right. apply in_or_app. right. assumption.
    + intros q Hq. right. apply in_or_app. right. apply H2. assumption.
Qed.

Lemma in_descendants : forall p t,
  p <> [] -> is_Some (node_at p t) -> In p (descendants t).
Proof.
  induction p as [|j q IH]; intros t Hne Hs; [contradiction|].
  destruct t as [tg cs ks]. simpl in Hs |- *.
  destruct (ks !! j) as [k|] eqn:Hk; [|destruct Hs; discriminate].
  assert (map descendants ks !! j = Some (descendants k)) as Hd.
  { change (map descendants ks) with (descendants <$> ks).
    rewrite list_lookup_fmap, Hk. reflexivity. }
  destruct (in_descendants_from _ 0 j _ Hd) as [H1 H2]. simpl in H1, H2.
  destruct q as [|j' q'].
  - assumption.
  - apply H2. apply IH; [discriminate | assumption].
Qed.

Lemma find_root sel t :
  find [] sel t = List.filter (matches t sel) (descendants t).
Proof.
  unfold find. simpl. rewrite <- (map_id (List.filter _ _)) at 2.
  apply map_ext. reflexivity.
Qed.

Lemma in_find_root sel p t :
  In p (find [] sel t) <-> In p (descendants t) /\ matches t sel p = true.
Proof. rewrite find_root. apply filter_In. Qed.

Lemma parent_snoc w (j : nat) : parent (w ++ [j]) = w.
Proof. apply removelast_last. Qed.

Lemma position_snoc w (j : nat) : position (w ++ [j]) = j.
Proof. apply last_last. Qed.

Lemma path_snoc p : p <> [] -> p = parent p ++ [position p].
Proof. intros H. apply app_removelast_last. assumption. Qed.

Lemma in_prevAll1 w j m :
  In (w ++ [j]) (prevAll1 m) <-> parent m = w /\ j < position m.
Proof.
  unfold prevAll1. rewrite in_map_iff. split.
  - intros (x & E & Hx). apply app_inj_tail in E as [-> ->].
    apply in_seq in Hx. split; [reflexivity | lia].
  - intros [<- Hj]. exists j. split; [reflexivity|]. apply in_seq. lia.
Qed.

Lemma in_nextAll1 w j m t :
  In (w ++ [j]) (nextAll1 t m) <->
  m <> [] /\ parent m = w /\ position m < j /\
  exists par, node_at w t = Some par /\ j < length (children par).
Proof.
  unfold nextAll1. destruct m as [|x m'].
  - simpl. split; [contradiction | intros [H _]; congruence].
  - set (m := x :: m'). destruct (node_at (parent m) t) as [par|] eqn:Hp.
    + rewrite in_map_iff. split.
      * intros (y & E & Hy). apply app_inj_tail in E as [E ->].
        apply in_seq in Hy. subst w.
        split; [discriminate|]. split; [reflexivity|]. split; [lia|].
        exists par. split; [assumption | lia].
      * intros (_ & <- & Hj & par' & Hp' & Hlt). exists j.
        split; [reflexivity|]. apply in_seq.
        rewrite Hp in Hp'. injection Hp' as <-. lia.
    + split; [contradiction|].
      intros (_ & <- & _ & par' & Hp' & _). congruence.
Qed.

Lemma in_prevAll w j coll :
  In (w ++ [j]) (prevAll coll) <->
  exists m, In m coll /\ parent m = w /\ j < position m.
Proof.
  unfold prevAll. rewrite in_flat_map. split.
  - intros (m & Hm & H). exists m. split; [assumption|]. apply in_prevAll1. assumption.
  - intros (m & Hm & H). exists m. split; [assumption|]. apply in_prevAll1. assumption.
Qed.

Lemma in_nextAll w j coll t :
  In (w ++ [j]) (nextAll t coll) <->
  exists m, In m coll /\ m <> [] /\ parent m = w /\ position m < j /\
    exists par, node_at w t = Some par /\ j < length (children par).
Proof.
  unfold nextAll. rewrite in_flat_map. split.
  - intros (m & Hm & H). exists m. split; [assumption|]. apply in_nextAll1. assumption.
  - intros (m & Hm & H). exists m. split; [assumption|]. apply in_nextAll1. assumption.
Qed.

Lemma node_at_app : forall p q t,
  node_at (p ++ q) t = node_at p t ≫= node_at q.
Proof.
  induction p as [|i p IH]; intros q t; simpl; [reflexivity|].
  destruct (children t !! i); simpl; [apply IH | reflexivity].
Qed.

Lemma index_from_snoc w x : forall m a z,
  a <= x < a + m ->
  index_from z (w ++ [x]) (map (fun j => w ++ [j]) (seq a m)) = (z + Z.of_nat (x - a))%Z.
Proof.
  induction m as [|m IH]; intros a z Hx; [lia|]. simpl.
  case_decide as E.
  - apply app_inj_tail in E as [_ ->]. rewrite Nat.sub_diag. lia.
  - assert (x <> a) by (intros ->; apply E; reflexivity).
    rewrite IH by lia. lia.
Qed.

End Dom.

(** * The widget invariant *)

Section Invariant.

Implicit Types (s : page) (a : addr) (w n : nat).

Lemma build_loop_spec : forall n a wp hs sts,
  build_loop n a wp hs sts = (hs ++ handlers_for n a wp, sts ++ replicate n li).
Proof.
  induction n as [|n IH]; intros a wp hs sts; simpl.
  - unfold handlers_for. simpl. rewrite !app_nil_r. reflexivity.
  - rewrite IH. unfold handlers_for. simpl.
    rewrite <- !app_assoc. reflexivity.
Qed.

Lemma get_starCount_set_count a a' c s :
  get_starCount a (set_count a' c s) = get_starCount a s.
Proof.
  unfold get_starCount, set_count. simpl.
  destruct (decide (a' = a)) as [->|Hne].
  - rewrite list_lookup_alter_eq. destruct (heap s !! a); reflexivity.
  - rewrite list_lookup_alter_ne by assumption. reflexivity.
Qed.

Lemma get_count_set_count a c s :
  is_Some (heap s !! a) -> get_count a (set_count a c s) = c.
Proof.
  intros [p Hp]. unfold get_count, set_count. simpl.
  rewrite list_lookup_alter_eq, Hp. reflexivity.
Qed.

Lemma widget_set_count a w n a' c s :
  widget a w n s -> widget a w n (set_count a' c s).
Proof.
  intros [H1 H2 H3 H4 H5]. split; simpl; try assumption.
  - destruct (decide (a' = a)) as [->|Hne].
    + rewrite list_lookup_alter_eq. apply fmap_is_Some. assumption.
    + rewrite list_lookup_alter_ne by assumption. assumption.
  - rewrite get_starCount_set_count. assumption.
Qed.

Lemma widget_with_el a w n f s :
  skeleton (f (el s)) = skeleton (el s) ->
  widget a w n s -> widget a w n (with_el f s).
Proof.
  intros Hf [H1 H2 H3 H4 H5]. split; try assumption.
  change (el (with_el f s)) with (f (el s)).
  rewrite (skeleton_node_at [w] _ _ Hf). assumption.
Qed.

Lemma skeleton_addClass c coll t : skeleton (addClass c coll t) = skeleton t.
Proof. apply skeleton_on_collection. Qed.

Lemma skeleton_removeClass c coll t : skeleton (removeClass c coll t) = skeleton t.
Proof. apply skeleton_on_collection. Qed.

Lemma widget_set a w n a' c s s' :
  widget a w n s -> _setStarCount a' c s = Normal s' -> widget a w n s'.
Proof.
  intros Hw. unfold _setStarCount.
  destruct (nth_of_type_li c) as [sel|e]; [|discriminate].
  intros E. injection E as <-.
  apply widget_set_count. apply widget_with_el; [apply skeleton_removeClass|].
  apply widget_with_el; [apply skeleton_addClass|]. assumption.
Qed.

Lemma widget_reset a w n a' s : widget a w n s -> widget a w n (_resetStarCount a' s).
Proof.
  intros Hw. unfold _resetStarCount. apply widget_set_count.
  apply widget_with_el; [apply skeleton_removeClass | assumption].
Qed.

Lemma widget_disable a w n a' s : widget a w n s -> widget a w n (_disableStarCount a' s).
Proof.
  intros Hw. unfold _disableStarCount.
  apply widget_with_el; [apply skeleton_addClass | assumption].
Qed.

Lemma widget_enable a w n a' s : widget a w n s -> widget a w n (_enableStarCount a' s).
Proof.
  intros Hw. unfold _enableStarCount.
  apply widget_with_el; [apply skeleton_removeClass | assumption].
Qed.

Lemma widget_run_handler a w n h this s :
  widget a w n s -> widget a w n (run_handler h this s).
Proof.
  intros Hw. unfold run_handler. destruct (h_event h).
  - apply widget_with_el; [apply skeleton_addClass | assumption].
  - apply widget_with_el; [apply skeleton_removeClass|].
    apply widget_with_el; [apply skeleton_removeClass | assumption].
  - apply widget_set_count.
    apply widget_with_el; [apply skeleton_removeClass|].
    apply widget_with_el; [apply skeleton_addClass | assumption].
Qed.

Lemma widget_fold_handlers a w n this hs : forall s,
  widget a w n s ->
  widget a w n (fold_left (fun s2 h => run_handler h this s2) hs s).
Proof.
  induction hs as [|h hs IH]; intros s Hw; simpl; [assumption|].
  apply IH, widget_run_handler, Hw.
Qed.

Lemma widget_trigger a w n ev target s :
  widget a w n s -> widget a w n (trigger ev target s).
Proof.
  intros Hw. unfold trigger. destruct (node_at target (el s)); [|assumption].
  generalize (List.filter (fun h => event_eqb (h_event h) ev) (events s)) as bound.
  generalize (List.filter (matches (el s) (Tag "li")) (bubble target)) as matched.
  intros matched bound. revert s Hw.
  induction matched as [|m ms IH]; intros s Hw; simpl; [assumption|].
  apply IH, widget_fold_handlers, Hw.
Qed.

Lemma new_Plugin_spec o s :
  new_Plugin o s =
  (length (heap s),
   {| el := el (created o s); data := data s;
      events := events (created o s); heap := heap (created o s) |}).
Proof.
  unfold new_Plugin, _init, _build, created. simpl.
  unfold get_starCount at 1. simpl.
  rewrite lookup_app_r by lia. rewrite Nat.sub_diag. simpl.
  rewrite build_loop_spec. reflexivity.
Qed.

Lemma starRating_create o args s :
  is_options o = true -> data s = None ->
  starRating o args s = (Normal Chain, created o s).
Proof.
  intros Ho Hd. unfold starRating.
  destruct o; try discriminate Ho; rewrite Hd, new_Plugin_spec; reflexivity.
Qed.

Lemma starRating_create_again o args s :
  is_options o = true -> initialized s = true ->
  starRating o args s = (Normal Chain, s).
Proof.
  intros Ho Hd. unfold initialized in Hd. unfold starRating.
  destruct (data s); [|discriminate].
  destruct o; try discriminate Ho; reflexivity.
Qed.

Lemma skeleton_li : skeleton li = star_skel.
Proof. reflexivity. Qed.

Lemma widget_created o s :
  events s = [] ->
  widget (length (heap s)) (length (children (el s)))
         (Z.to_nat (starCount (extend defaults o))) (created o s).
Proof.
  intros He. split; simpl.
  - reflexivity.
  - rewrite lookup_app_r by lia. rewrite Nat.sub_diag. eexists; reflexivity.
  - unfold get_starCount. simpl.
    rewrite lookup_app_r by lia. rewrite Nat.sub_diag. reflexivity.
  - rewrite He. reflexivity.
  - rewrite lookup_app_r by lia. rewrite Nat.sub_diag. simpl. f_equal. f_equal.
    induction (Z.to_nat (starCount (extend defaults o))) as [|n IH]; simpl;
      [reflexivity | f_equal; assumption].
Qed.

Lemma member_in name m : member name = Some m -> In (name, m) prototype.
Proof.
  unfold member. destruct (List.find _ prototype) as [[x y]|] eqn:E; [|discriminate].
  simpl. intros H. injection H as ->.
  apply find_some in E as [Hin He]. simpl in He.
  apply String.eqb_eq in He. subst x. assumption.
Qed.

Lemma member_public name m :
  underscore name = false -> member name = Some m -> public m = true.
Proof.
  intros Hu Hm. apply member_in in Hm. unfold prototype in Hm. simpl in Hm.
  repeat (destruct Hm as [Hm|Hm];
          [injection Hm as <- <-; first [discriminate Hu | reflexivity] |]).
  destruct Hm.
Qed.

Lemma wf_widget a w n s : widget a w n s -> wf s.
Proof. intros Hw. unfold wf. rewrite (wd_data _ _ _ _ Hw). eauto. Qed.

Lemma wf_apply_public m a a' w n args s v s' :
  widget a w n s -> public m = true ->
  apply_method m a' args s = Normal (v, s') -> wf s'.
Proof.
  intros Hw Hp E. destruct m; try discriminate Hp; simpl in E.
  - injection E as _ <-. reflexivity.
  - unfold set in E. destruct (_setStarCount a' (arg0 args) s) as [s1|e] eqn:E1;
      [|discriminate]. injection E as _ <-.
    eapply wf_widget, widget_set; eassumption.
  - injection E as _ <-. eapply wf_widget, widget_reset; eassumption.
  - injection E as _ <-. eapply wf_widget; eassumption.
  - injection E as _ <-. eapply wf_widget, widget_disable; eassumption.
  - injection E as _ <-. eapply wf_widget, widget_enable; eassumption.
Qed.

Lemma wf_starRating o args s : wf s -> wf (snd (starRating o args s)).
Proof.
  intros Hwf. destruct (data s) as [a|] eqn:Hd.
  - destruct o.
    + simpl. rewrite Hd. assumption.
    + simpl. rewrite Hd. assumption.
    + assumption.
    + unfold starRating. rewrite Hd.
      destruct (negb (underscore s0) && negb (s0 =? "init")%string) eqn:Hg;
        [|assumption].
      apply andb_true_iff in Hg as [Hu _]. apply negb_true_iff in Hu.
      unfold wf in Hwf. rewrite Hd in Hwf. destruct Hwf as (w & n & Hw).
      assert (forall m, member s0 = Some m ->
        forall v s', apply_method m a args s = Normal (v, s') -> wf s') as Hm.
      { intros m Hm v s' E. eapply wf_apply_public; try eassumption.
        eapply member_public; eassumption. }
      assert (wf s) as Hs by (eapply wf_widget; eassumption).
      destruct (_ && _); destruct (member s0) as [m|]; try assumption;
        destruct (apply_method m a args s) as [[v s']|e] eqn:E; try assumption;
        simpl; eapply Hm; try reflexivity; eassumption.
    + simpl. rewrite Hd. assumption.
  - unfold wf in Hwf. rewrite Hd in Hwf. destruct o.
    + rewrite starRating_create by (try reflexivity; assumption).
      eapply wf_widget, widget_created; assumption.
    + rewrite starRating_create by (try reflexivity; assumption).
      eapply wf_widget, widget_created; assumption.
    + unfold wf. simpl. rewrite Hd. assumption.
    + assert (wf s) as Hs by (unfold wf; rewrite Hd; assumption).
      unfold starRating. rewrite Hd.
      destruct (_ && _); [|assumption]. destruct (_ && _); assumption.
    + rewrite starRating_create by (try reflexivity; assumption).
      eapply wf_widget, widget_created; assumption.
Qed.

Lemma wf_trigger ev target s : wf s -> wf (trigger ev target s).
Proof.
  intros Hwf. destruct (data s) as [a|] eqn:Hd.
  - unfold wf in Hwf. rewrite Hd in Hwf. destruct Hwf as (w & n & Hw).
    eapply wf_widget, widget_trigger, Hw.
  - unfold wf in Hwf. rewrite Hd in Hwf.
    unfold trigger. rewrite Hwf. simpl.
    destruct (node_at target (el s)); [|unfold wf; rewrite Hd; assumption].
    induction (List.filter (matches (el s) (Tag "li")) (bubble target)) as [|m ms IH];
      simpl; [unfold wf; rewrite Hd; assumption | assumption].
Qed.

Lemma wf_step x s : wf s -> wf (step x s).
Proof. destruct x; [apply wf_starRating | apply wf_trigger]. Qed.

Lemma wf_run ops : forall s, wf s -> wf (run ops s).
Proof.
  induction ops as [|x ops IH]; intros s Hwf; simpl; [assumption|].
  apply IH, wf_step, Hwf.
Qed.

Lemma wf_fresh c : wf (fresh c).
Proof. reflexivity. Qed.

(** Every page the plugin can produce holds either no instance and no
    handlers, or a widget. *)
Lemma reachable_widget c ops a :
  data (run ops (fresh c)) = Some a ->
  exists w n, widget a w n (run ops (fresh c)).
Proof.
  intros Hd. pose proof (wf_run ops _ (wf_fresh c)) as Hwf.
  unfold wf in Hwf. rewrite Hd in Hwf. assumption.
Qed.

End Invariant.

(** * What the operations do to the stars *)

Section Stars.

Implicit Types (s : page) (a : addr) (w n : nat).

Lemma star_skel_inv k :
  skeleton k = star_skel -> exists cs cs', k = Elem "li" cs [Elem "i" cs' []].
Proof.
  destruct k as [tg cs ks]. unfold star_skel. simpl. intros E.
  injection E as -> E.
  destruct ks as [|[tg' cs' ks'] [|? ?]]; try discriminate E.
  simpl in E. injection E as -> E. destruct ks'; [|discriminate E].
  eauto.
Qed.

(** The [ul] of a widget and its children. *)
Lemma widget_wrapper a w n s :
  widget a w n s ->
  exists u, node_at [w] (el s) = Some u /\ tag u = "ul" /\
    length (children u) = n /\
    forall j k, children u !! j = Some k -> skeleton k = star_skel.
Proof.
  intros Hw. pose proof (wd_wrapper _ _ _ _ Hw) as H.
  destruct (node_at [w] (el s)) as [u|]; [|discriminate H].
  exists u. split; [reflexivity|]. simpl in H. injection H as H.
  destruct u as [tg cs ks]. simpl in H. injection H as -> H. simpl.
  split; [reflexivity|]. split.
  - rewrite <- (length_map skeleton), H. apply length_replicate.
  - intros j k Hk.
    assert (map skeleton ks !! j = Some (skeleton k)) as E.
    { change (map skeleton ks) with (skeleton <$> ks).
      rewrite list_lookup_fmap, Hk. reflexivity. }
    rewrite H in E. apply lookup_replicate in E as [E _]. congruence.
Qed.

Lemma widget_star a w n s j :
  widget a w n s -> j < n ->
  exists cs cs', node_at [w; j] (el s) = Some (Elem "li" cs [Elem "i" cs' []]).
Proof.
  intros Hw Hj. destruct (widget_wrapper _ _ _ _ Hw) as (u & Hu & _ & Hn & Hk).
  change [w; j] with ([w] ++ [j]). rewrite node_at_app, Hu. simpl.
  destruct (children u !! j) as [k|] eqn:E.
  - destruct (star_skel_inv k (Hk _ _ E)) as (cs & cs' & ->). eauto.
  - apply lookup_ge_None in E. lia.
Qed.

Lemma widget_icon a w n s j :
  widget a w n s -> j < n ->
  exists cs', node_at [w; j; 0] (el s) = Some (Elem "i" cs' []).
Proof.
  intros Hw Hj. destruct (widget_star _ _ _ _ j Hw Hj) as (cs & cs' & E).
  exists cs'. change [w; j; 0] with ([w; j] ++ [0]). rewrite node_at_app, E.
  reflexivity.
Qed.

Lemma matches_tag t tg p :
  matches t (Tag tg) p =
  match node_at p t with Some n => String.eqb (tag n) tg | None => false end.
Proof. reflexivity. Qed.

Lemma filter_star_descendants (f : path -> bool) : forall ks i,
  (forall k, In k ks -> skeleton k = star_skel) ->
  (forall j, i <= j < i + length ks -> f [j] = true /\ f [j; 0] = false) ->
  List.filter f (descendants_from i (map descendants ks)) =
  map (fun j => [j]) (seq i (length ks)).
Proof.
  induction ks as [|k ks IH]; intros i Hk Hf; [reflexivity|].
  destruct (star_skel_inv k) as (cs & cs' & ->); [apply Hk; left; reflexivity|].
  simpl. destruct (Hf i) as [-> ->]; [simpl; lia|].
  f_equal. apply IH.
  - intros k' Hin. apply Hk. right. assumption.
  - intros j Hj. apply Hf. simpl. lia.
Qed.

(** [find("li")] below the [ul] of a widget: the stars, in order. *)
Lemma find_stars a w n s :
  widget a w n s ->
  find [w] (Tag "li") (el s) = map (fun j => [w] ++ [j]) (seq 0 n).
Proof.
  intros Hw. destruct (widget_wrapper _ _ _ _ Hw) as (u & Hu & _ & Hn & Hk).
  unfold find. rewrite Hu. destruct u as [tg cs ks]. simpl in Hn, Hk.
  cbn [descendants]. rewrite (filter_star_descendants _ ks 0).
  - rewrite map_map, Hn. reflexivity.
  - intros k Hin. apply list_elem_of_In, list_elem_of_lookup in Hin as [j Hj].
    eapply Hk, Hj.
  - intros j Hj. rewrite !matches_tag. simpl.
    destruct (ks !! j) as [k|] eqn:E; [|apply lookup_ge_None in E; lia].
    destruct (star_skel_inv k (Hk _ _ E)) as (c1 & c2 & ->). split; reflexivity.
Qed.

Lemma filter_click_handlers n a wp :
  List.filter (fun h => event_eqb (h_event h) Click) (handlers_for n a wp) =
  replicate n {| h_event := Click; h_thiz := a; h_wrapper := wp |}.
Proof.
  unfold handlers_for. induction n as [|n IH]; [reflexivity|].
  simpl. f_equal. apply IH.
Qed.

Lemma wrapper_widget a w n s : widget a w n s -> 0 < n -> wrapper s = Some [w].
Proof.
  intros Hw Hn. unfold wrapper. rewrite (wd_events _ _ _ _ Hw).
  destruct n; [lia | reflexivity].
Qed.

Lemma map_lookup_seq {A B} (f : A -> B) (d : B) (ks : list A) :
  map f ks =
  map (fun j => match ks !! j with Some k => f k | None => d end)
      (seq 0 (length ks)).
Proof.
  apply list_eq. intros i.
  change (map f ks) with (f <$> ks).
  change (map ?g ?l) with (g <$> l).
  rewrite !list_lookup_fmap.
  destruct (ks !! i) as [k|] eqn:E; simpl.
  - rewrite lookup_seq_lt by (eapply lookup_lt_Some; eassumption).
    simpl. rewrite E. reflexivity.
  - rewrite lookup_seq_ge by (apply lookup_ge_None; assumption). reflexivity.
Qed.

(** The marks of the stars, read through their paths. *)
Lemma marks_widget c a w n s :
  widget a w n s ->
  marks c s = map (fun j => marked c [w; j] (el s)) (seq 0 n).
Proof.
  intros Hw. unfold marks, stars. destruct n as [|n].
  - unfold wrapper. rewrite (wd_events _ _ _ _ Hw). reflexivity.
  - rewrite (wrapper_widget _ _ _ _ Hw) by lia.
    destruct (widget_wrapper _ _ _ _ Hw) as (u & Hu & _ & Hn & _).
    rewrite Hu, (map_lookup_seq _ false), Hn.
    apply map_ext. intros j. unfold marked.
    change [w; j] with ([w] ++ [j]). rewrite node_at_app, Hu. simpl.
    destruct (children u !! j); reflexivity.
Qed.

Lemma prefix_seq i : forall m a,
  a <= i <= a + m ->
  map (fun j => j <? i) (seq a m) =
  replicate (i - a) true ++ replicate (a + m - i) false.
Proof.
  induction m as [|m IH]; intros a Hi; simpl.
  - replace (i - a) with 0 by lia. replace (a + 0 - i) with 0 by lia. reflexivity.
  - destruct (Nat.ltb_spec a i) as [Hlt|Hge].
    + rewrite IH by lia. replace (i - a) with (S (i - S a)) by lia.
      simpl. repeat f_equal. lia.
    + rewrite (map_ext_in _ (fun _ => false)).
      * replace (i - a) with 0 by lia. simpl.
        replace (a + S m - i) with (S m) by lia. simpl. f_equal.
        clear. generalize (S a). induction m; intros; simpl; [reflexivity|].
        f_equal. apply IHm.
      * intros j Hj. apply in_seq in Hj. apply Nat.ltb_ge. lia.
Qed.

(** *** Selecting up to an element

    [_setStarCount] and the click handler share one pattern: with [L] the
    collection holding the last star to select,
    [L.prevAll().add(L).addClass("selected")] and then
    [L.nextAll().removeClass("selected")]. *)

Lemma select_upto a w n s (L : list path) j :
  widget a w n s -> j < n ->
  In [w; j] L ->
  (forall m, In m L -> parent m = [w] -> m = [w; j]) ->
  let t1 := addClass "selected" (add (prevAll L) L) (el s) in
  let t2 := removeClass "selected" (nextAll t1 L) t1 in
  selected_upto (S j) w n t2.
Proof.
  intros Hw Hj HL Huniq t1 t2 x Hx.
  assert (widget a w n (with_el (fun _ => t1) s)) as Hw1.
  { apply widget_with_el; [apply skeleton_addClass | assumption]. }
  destruct (widget_wrapper _ _ _ _ Hw1) as (u1 & Hu1 & _ & Hn1 & _).
  change (node_at [w] t1 = Some u1) in Hu1.
  destruct (Nat.ltb_spec x (S j)) as [Hle|Hgt].
  - unfold t2. rewrite marked_removeClass_notin.
    + apply marked_addClass_in.
      * unfold add. apply in_or_app.
        destruct (decide (x = j)) as [->|Hne]; [right; assumption|].
        left. change [w; x] with ([w] ++ [x]). apply in_prevAll.
        exists [w; j]. split; [assumption|]. split; [reflexivity|].
        unfold position. simpl. lia.
      * destruct (widget_star _ _ _ _ x Hw Hx) as (cs & cs' & ->). eexists; reflexivity.
    + change [w; x] with ([w] ++ [x]). rewrite in_nextAll.
      intros (m & Hm & _ & Hp & Hpos & _).
      rewrite (Huniq m Hm Hp) in Hpos. unfold position in Hpos. simpl in Hpos. lia.
  - unfold t2. apply marked_removeClass_in.
    change [w; x] with ([w] ++ [x]). apply in_nextAll.
    exists [w; j]. split; [assumption|]. split; [discriminate|].
    split; [reflexivity|]. split; [unfold position; simpl; lia|].
    exists u1. split; [assumption | lia].
Qed.

Lemma select_nothing w (L : list path) t c x :
  (forall m, In m L -> parent m <> [w] \/ m = []) ->
  let t1 := addClass "selected" (add (prevAll L) L) t in
  let t2 := removeClass "selected" (nextAll t1 L) t1 in
  marked c [w; x] t2 = marked c [w; x] t.
Proof.
  intros Hnone t1 t2. unfold t2. rewrite marked_removeClass_notin.
  - unfold t1. apply marked_addClass_notin.
    unfold add. intros H. apply in_app_or in H as [H|H].
    + change [w; x] with ([w] ++ [x]) in H. apply in_prevAll in H.
      destruct H as (m & Hm & Hp & Hlt).
      destruct (Hnone m Hm) as [Hq| ->]; [contradiction|].
      unfold position in Hlt. simpl in Hlt. lia.
    + destruct (Hnone _ H) as [Hq|Hq]; [|discriminate Hq]. apply Hq. reflexivity.
  - change [w; x] with ([w] ++ [x]). rewrite in_nextAll.
    intros (m & Hm & Hne & Hp & _).
    destruct (Hnone m Hm) as [Hq|Hq]; contradiction.
Qed.

(** *** The click handler *)

Lemma run_click a w n s j :
  widget a w n s -> j < n ->
  let s' := run_handler {| h_event := Click; h_thiz := a; h_wrapper := [w] |}
                        [w; j] s in
  widget a w n s' /\
  get_count a s' = Num (Z.of_nat (S j)) /\
  selected_upto (S j) w n (el s').
Proof.
  intros Hw Hj s'. split; [apply widget_run_handler; assumption|].
  unfold s', run_handler. cbn [h_event h_thiz h_wrapper].
  set (s1 := with_el (addClass "selected" (add (prevAll [[w; j]]) [[w; j]])) s).
  set (s2 := with_el (fun e => removeClass "selected" (nextAll e [[w; j]]) e) s1).
  assert (widget a w n s2) as Hw2.
  { apply widget_with_el; [apply skeleton_removeClass|].
    apply widget_with_el; [apply skeleton_addClass | assumption]. }
  split.
  - rewrite get_count_set_count by apply (wd_heap _ _ _ _ Hw2).
    rewrite (find_stars _ _ _ _ Hw2). unfold index.
    change [w; j] with ([w] ++ [j]).
    rewrite index_from_snoc by lia. f_equal. lia.
  - change (el (set_count _ _ s2)) with (el s2).
    apply (select_upto a w n s [[w; j]] j Hw Hj).
    + left. reflexivity.
    + intros m [<-|[]] _. reflexivity.
Qed.

Lemma fold_click a w n j : forall k s,
  widget a w n s -> j < n ->
  let s' := fold_left (fun s2 h => run_handler h [w; j] s2)
              (replicate (S k) {| h_event := Click; h_thiz := a; h_wrapper := [w] |}) s in
  widget a w n s' /\
  get_count a s' = Num (Z.of_nat (S j)) /\
  selected_upto (S j) w n (el s').
Proof.
  induction k as [|k IH]; intros s Hw Hj.
  - simpl. apply run_click; assumption.
  - cbn [replicate fold_left]. apply IH; [|assumption].
    apply widget_run_handler. assumption.
Qed.

(** A click on a star, or on the icon inside it. *)
Lemma trigger_click_star a w n s j target :
  widget a w n s -> j < n ->
  target = [w; j] \/ target = [w; j; 0] ->
  let s' := trigger Click target s in
  widget a w n s' /\
  get_count a s' = Num (Z.of_nat (S j)) /\
  selected_upto (S j) w n (el s').
Proof.
  intros Hw Hj Ht.
  destruct (widget_wrapper _ _ _ _ Hw) as (u & Hu & Htag & Hn & _).
  destruct (widget_star _ _ _ _ j Hw Hj) as (cs & cs' & Hstar).
  destruct (widget_icon _ _ _ _ j Hw Hj) as (cs'' & Hicon).
  assert (List.filter (matches (el s) (Tag "li")) (bubble target) = [[w; j]]) as Hm.
  { destruct Ht as [-> | ->]; unfold bubble; simpl rev;
      cbn [List.filter]; rewrite !matches_tag;
      rewrite ?Hicon, Hstar, Hu, Htag; reflexivity. }
  unfold trigger.
  assert (is_Some (node_at target (el s))) as [nd ->].
  { destruct Ht as [-> | ->]; [rewrite Hstar | rewrite Hicon]; eexists; reflexivity. }
  rewrite Hm, (wd_events _ _ _ _ Hw), filter_click_handlers.
  destruct n as [|n]; [lia|]. cbn [fold_left].
  apply fold_click; assumption.
Qed.

(** *** [_setStarCount] *)

Lemma filter_all {A} (f : A -> bool) (l : list A) :
  (forall x, In x l -> f x = true) -> List.filter f l = l.
Proof.
  induction l as [|x l IH]; intros H; simpl; [reflexivity|].
  rewrite (H x) by (left; reflexivity). f_equal. apply IH.
  intros y Hy. apply H. right. assumption.
Qed.

Lemma type_rank_stars u x :
  (forall j k, children u !! j = Some k -> skeleton k = star_skel) ->
  x <= length (children u) ->
  type_rank "li" (children u) x = S x.
Proof.
  intros Hk Hx. unfold type_rank. f_equal. rewrite filter_all.
  - rewrite length_take. lia.
  - intros k Hin. apply list_elem_of_In, list_elem_of_lookup in Hin as [j Hj].
    apply lookup_take_Some in Hj as [Hj _].
    destruct (star_skel_inv k (Hk _ _ Hj)) as (c1 & c2 & ->). reflexivity.
Qed.

(** Below the [ul] of a widget, ["li:nth-of-type(k)"] finds the [k]-th
    star when there is one… *)
Lemma nth_of_type_star a w n s k :
  widget a w n s -> (1 <= k <= Z.of_nat n)%Z ->
  In [w; Z.to_nat k - 1] (find [] (NthOfType "li" k) (el s)).
Proof.
  intros Hw Hk. set (j := Z.to_nat k - 1). assert (j < n) as Hj by lia.
  destruct (widget_wrapper _ _ _ _ Hw) as (u & Hu & _ & Hn & Hks).
  destruct (widget_star _ _ _ _ j Hw Hj) as (cs & cs' & Hstar).
  apply in_find_root. split.
  - apply in_descendants; [discriminate|]. rewrite Hstar. eexists; reflexivity.
  - unfold matches. rewrite Hstar.
    change (parent [w; j]) with [w]. change (position [w; j]) with j.
    rewrite Hu, type_rank_stars by (assumption || lia).
    rewrite String.eqb_refl. apply Z.eqb_eq. lia.
Qed.

(** …and nothing else. *)
Lemma nth_of_type_in_wrapper a w n s k m :
  widget a w n s ->
  In m (find [] (NthOfType "li" k) (el s)) ->
  m <> [] /\
  (parent m = [w] -> (1 <= k <= Z.of_nat n)%Z /\ m = [w; Z.to_nat k - 1]).
Proof.
  intros Hw Hin. apply in_find_root in Hin as [_ Hm].
  unfold matches in Hm.
  destruct (node_at m (el s)) as [nd|] eqn:Hnd; [|discriminate Hm].
  apply andb_true_iff in Hm as [_ Hm].
  destruct m as [|x0 m0]; [discriminate Hm|]. split; [discriminate|].
  set (m := x0 :: m0) in *. intros Hp.
  destruct (widget_wrapper _ _ _ _ Hw) as (u & Hu & _ & Hn & Hks).
  rewrite Hp, Hu in Hm. apply Z.eqb_eq in Hm.
  assert (m = [w] ++ [position m]) as Em.
  { rewrite <- Hp. apply path_snoc. discriminate. }
  assert (position m < n) as Hlt.
  { rewrite Em, node_at_app, Hu in Hnd. simpl in Hnd.
    destruct (children u !! position m) eqn:E; [|discriminate Hnd].
    apply lookup_lt_Some in E. lia. }
  rewrite type_rank_stars in Hm by (assumption || lia).
  split; [lia|]. rewrite Em. simpl. do 2 f_equal. lia.
Qed.

Lemma max_starCount_exponent_form : (max_starCount < exponent_form)%Z.
Proof. reflexivity. Qed.

Lemma nth_of_type_li_small k :
  (Z.abs k < exponent_form)%Z ->
  nth_of_type_li (Num k) = Normal (NthOfType "li" k).
Proof.
  intros Hk. unfold nth_of_type_li.
  destruct (Z.ltb_spec (Z.abs k) exponent_form); [reflexivity | lia].
Qed.

Lemma nth_of_type_li_large k :
  (exponent_form <= Z.abs k)%Z -> nth_of_type_li (Num k) = Throw SelectorError.
Proof.
  intros Hk. unfold nth_of_type_li.
  destruct (Z.ltb_spec (Z.abs k) exponent_form); [lia | reflexivity].
Qed.

Lemma set_in_range a w n s k :
  widget a w n s -> (1 <= k <= Z.of_nat n)%Z ->
  (Z.abs k < exponent_form)%Z ->
  exists s', _setStarCount a (Num k) s = Normal s' /\
    widget a w n s' /\ get_count a s' = Num k /\
    selected_upto (Z.to_nat k) w n (el s').
Proof.
  intros Hw Hk Hs. unfold _setStarCount.
  rewrite (nth_of_type_li_small k Hs). cbv zeta.
  eexists. split; [reflexivity|]. split.
  { apply widget_set_count. apply widget_with_el; [apply skeleton_removeClass|].
    apply widget_with_el; [apply skeleton_addClass | assumption]. }
  split.
  - apply get_count_set_count. apply (wd_heap _ _ _ _ Hw).
  - replace (Z.to_nat k) with (S (Z.to_nat k - 1)) by lia.
    apply (select_upto a w n s); [assumption | lia | |].
    + apply (nth_of_type_star a w n s k); assumption.
    + intros m Hm Hp.
      destruct (nth_of_type_in_wrapper a w n s k m Hw Hm) as [_ H].
      apply H. assumption.
Qed.

Lemma set_out_of_range a w n s k :
  widget a w n s -> ~ (1 <= k <= Z.of_nat n)%Z ->
  (Z.abs k < exponent_form)%Z ->
  exists s', _setStarCount a (Num k) s = Normal s' /\
    widget a w n s' /\ get_count a s' = Num k /\
    forall c x, marked c [w; x] (el s') = marked c [w; x] (el s).
Proof.
  intros Hw Hk Hs. unfold _setStarCount.
  rewrite (nth_of_type_li_small k Hs). cbv zeta.
  eexists. split; [reflexivity|]. split.
  { apply widget_set_count. apply widget_with_el; [apply skeleton_removeClass|].
    apply widget_with_el; [apply skeleton_addClass | assumption]. }
  split.
  - apply get_count_set_count. apply (wd_heap _ _ _ _ Hw).
  - intros c x. apply select_nothing. intros m Hm.
    destruct (nth_of_type_in_wrapper a w n s k m Hw Hm) as [_ H].
    left. intros Hp. apply Hk, H, Hp.
Qed.

(** *** [_resetStarCount], [_disableStarCount], [_enableStarCount] *)

Lemma reset_spec a w n s :
  widget a w n s ->
  let s' := _resetStarCount a s in
  widget a w n s' /\ get_count a s' = Null /\ selected_upto 0 w n (el s').
Proof.
  intros Hw s'. split; [apply widget_reset; assumption|]. split.
  - apply get_count_set_count. apply (wd_heap _ _ _ _ Hw).
  - intros x Hx. change (x <? 0) with false.
    apply marked_removeClass_in.
    destruct (widget_star _ _ _ _ x Hw Hx) as (cs & cs' & Hstar).
    apply in_find_root. split.
    + apply in_descendants; [discriminate|]. rewrite Hstar. eexists; reflexivity.
    + rewrite matches_tag, Hstar. reflexivity.
Qed.

Lemma disable_spec a s c q :
  c <> "disable" ->
  get_count a (_disableStarCount a s) = get_count a s /\
  marked c q (el (_disableStarCount a s)) = marked c q (el s).
Proof.
  intros Hc. split; [reflexivity|].
  apply marked_addClass_other. assumption.
Qed.

Lemma enable_spec a s c q :
  c <> "disable" ->
  get_count a (_enableStarCount a s) = get_count a s /\
  marked c q (el (_enableStarCount a s)) = marked c q (el s).
Proof.
  intros Hc. split; [reflexivity|].
  apply marked_removeClass_other. assumption.
Qed.

(** *** The documented calls on a page that holds an instance *)

Lemma starRating_set a k s :
  data s = Some a ->
  starRating (JStr "set") [k] s =
  match _setStarCount a (Num k) s with
  | Normal s' => (Normal Chain, s')
  | Throw e => (Throw e, s)
  end.
Proof.
  intros Hd. unfold starRating. rewrite Hd. cbn. unfold set.
  destruct (_setStarCount a (Num k) s); reflexivity.
Qed.

Lemma starRating_get a s :
  data s = Some a ->
  starRating (JStr "get") [] s = (Normal (Value (get_count a s)), s).
Proof. intros Hd. unfold starRating. rewrite Hd. reflexivity. Qed.

Lemma starRating_reset a s :
  data s = Some a ->
  starRating (JStr "reset") [] s = (Normal Chain, _resetStarCount a s).
Proof. intros Hd. unfold starRating. rewrite Hd. reflexivity. Qed.

Lemma starRating_disable a s :
  data s = Some a ->
  starRating (JStr "disable") [] s = (Normal Chain, _disableStarCount a s).
Proof. intros Hd. unfold starRating. rewrite Hd. reflexivity. Qed.

Lemma starRating_enable a s :
  data s = Some a ->
  starRating (JStr "enable") [] s = (Normal Chain, _enableStarCount a s).
Proof. intros Hd. unfold starRating. rewrite Hd. reflexivity. Qed.

(** The marks of a widget whose first [k] stars are the selected ones. *)
Lemma marks_selected_upto a w n s k :
  widget a w n s -> k <= n -> selected_upto k w n (el s) ->
  marks "selected" s = replicate k true ++ replicate (n - k) false.
Proof.
  intros Hw Hk Hsel. rewrite (marks_widget _ _ _ _ _ Hw).
  rewrite (map_ext_in _ (fun j => j <? k)).
  - rewrite prefix_seq by lia. repeat f_equal; lia.
  - intros x Hx. apply in_seq in Hx. apply Hsel. lia.
Qed.

End Stars.

(** * The size of a widget *)

Section Small.

Implicit Types (s : page) (a : addr) (w n : nat).

Lemma get_starCount_run_handler a h this s :
  get_starCount a (run_handler h this s) = get_starCount a s.
Proof.
  unfold run_handler. destruct (h_event h); try reflexivity.
  rewrite get_starCount_set_count. reflexivity.
Qed.

Lemma get_starCount_fold_handlers a this hs : forall s,
  get_starCount a (fold_left (fun s2 h => run_handler h this s2) hs s) =
  get_starCount a s.
Proof.
  induction hs as [|h hs IH]; intros s; simpl; [reflexivity|].
  rewrite IH. apply get_starCount_run_handler.
Qed.

Lemma get_starCount_trigger a ev target s :
  get_starCount a (trigger ev target s) = get_starCount a s.
Proof.
  unfold trigger. destruct (node_at target (el s)); [|reflexivity].
  generalize (List.filter (fun h => event_eqb (h_event h) ev) (events s)).
  generalize (List.filter (matches (el s) (Tag "li")) (bubble target)).
  intros matched bound. generalize s.
  induction matched as [|m ms IH]; intros s0; simpl; [reflexivity|].
  rewrite IH. apply get_starCount_fold_handlers.
Qed.

Lemma get_starCount_apply m a a' args s v s' :
  public m = true ->
  apply_method m a' args s = Normal (v, s') ->
  get_starCount a s' = get_starCount a s.
Proof.
  intros Hp E. destruct m; try discriminate Hp; cbn [apply_method] in E.
  - injection E as _ <-. reflexivity.
  - unfold set, _setStarCount in E.
    destruct (nth_of_type_li (arg0 args)); [|discriminate E].
    injection E as _ <-. rewrite get_starCount_set_count. reflexivity.
  - injection E as _ <-. unfold reset, _resetStarCount.
    rewrite get_starCount_set_count. reflexivity.
  - injection E as _ <-. reflexivity.
  - injection E as _ <-. reflexivity.
  - injection E as _ <-. reflexivity.
Qed.

Lemma get_starCount_build a this s :
  get_starCount a (_build this s) = get_starCount a s.
Proof.
  unfold _build. destruct (build_loop _ _ _ _ _). reflexivity.
Qed.

Lemma get_starCount_apply_any m a a' args s v s' :
  apply_method m a' args s = Normal (v, s') ->
  get_starCount a s' = get_starCount a s.
Proof.
  intros E. destruct (public m) eqn:Hp;
    [eapply get_starCount_apply; eassumption|].
  destruct m; try discriminate Hp; cbn [apply_method] in E.
  - injection E as _ <-. apply get_starCount_build.
  - injection E as _ <-. apply get_starCount_build.
  - destruct (_setStarCount a' (arg0 args) s) as [s1|e] eqn:E1; [|discriminate E].
    injection E as _ <-. unfold _setStarCount in E1.
    destruct (nth_of_type_li (arg0 args)); [|discriminate E1].
    injection E1 as <-. rewrite get_starCount_set_count. reflexivity.
  - injection E as _ <-. unfold _resetStarCount.
    rewrite get_starCount_set_count. reflexivity.
  - injection E as _ <-. reflexivity.
  - injection E as _ <-. reflexivity.
Qed.

Lemma extend_small o : (starCount (extend defaults o) <= max_starCount)%Z.
Proof.
  destruct o as [| | | |[[k Hk]|]]; simpl; try (apply Z.leb_le; reflexivity).
  apply Z.leb_le. assumption.
Qed.

Lemma small_created o s : small s -> small (created o s).
Proof.
  intros Hs a. unfold get_starCount, created. cbn [heap].
  destruct (lt_eq_lt_dec a (length (heap s))) as [[Hlt|Heq]|Hgt].
  - rewrite lookup_app_l by assumption. apply Hs.
  - subst a. rewrite lookup_app_r by lia. rewrite Nat.sub_diag. apply extend_small.
  - rewrite lookup_ge_None_2; [apply Z.leb_le; reflexivity|].
    rewrite length_app. simpl. lia.
Qed.

Lemma small_starRating o args s : small s -> small (snd (starRating o args s)).
Proof.
  intros Hs. destruct (is_options o) eqn:Ho.
  - destruct (data s) eqn:Hd.
    + rewrite starRating_create_again;
        [assumption | assumption | unfold initialized; rewrite Hd; reflexivity].
    + rewrite starRating_create by assumption. apply small_created. assumption.
  - destruct o as [| |k|name|k]; try discriminate Ho; [assumption|].
    unfold starRating.
    destruct (_ && _); [|assumption].
    destruct (_ && _); destruct (data s) as [a0|]; try assumption;
      destruct (member name) as [m|]; try assumption;
      destruct (apply_method m a0 args s) as [[v s']|e] eqn:E; try assumption;
      intros a; cbn [snd];
      rewrite (get_starCount_apply_any m a a0 args s v s' E); apply Hs.
Qed.

Lemma small_trigger ev target s : small s -> small (trigger ev target s).
Proof. intros Hs a. rewrite get_starCount_trigger. apply Hs. Qed.

Lemma small_step x s : small s -> small (step x s).
Proof. destruct x; [apply small_starRating | apply small_trigger]. Qed.

Lemma small_run ops : forall s, small s -> small (run ops s).
Proof.
  induction ops as [|x ops IH]; intros s Hs; simpl; [assumption|].
  apply IH, small_step, Hs.
Qed.

Lemma small_fresh c : small (fresh c).
Proof. intros a. apply Z.leb_le. reflexivity. Qed.

(** A rating within the range of a widget prints in decimal digits. *)
Lemma in_range_decimal s k :
  small s -> (1 <= k <= star_count s)%Z -> (Z.abs k < exponent_form)%Z.
Proof.
  intros Hs Hk. pose proof max_starCount_exponent_form as Hm.
  assert (star_count s <= max_starCount)%Z as Hb.
  { unfold star_count. destruct (data s) as [a|]; [apply Hs|].
    apply Z.leb_le. reflexivity. }
  lia.
Qed.

End Small.

(** * The behaviour of the documented interface *)

Section Interface.

Implicit Types (s : page) (a : addr) (w n : nat).

Lemma initialized_widget s :
  wf s -> initialized s = true ->
  exists a w n, widget a w n s /\ Z.to_nat (star_count s) = n.
Proof.
  unfold wf, initialized, star_count. destruct (data s) as [a|]; [|discriminate].
  intros (w & n & Hw) _. exists a, w, n. split; [assumption|].
  apply (wd_count _ _ _ _ Hw).
Qed.

Lemma star_count_widget a w n s :
  widget a w n s -> star_count s = get_starCount a s.
Proof. intros Hw. unfold star_count. rewrite (wd_data _ _ _ _ Hw). reflexivity. Qed.

Lemma star_widget a w n s i :
  widget a w n s -> 1 <= i <= n ->
  star i s = [w; i - 1] /\ star_icon i s = [w; i - 1; 0].
Proof.
  intros Hw Hi. unfold star_icon, star.
  rewrite (wrapper_widget _ _ _ _ Hw) by lia. split; reflexivity.
Qed.

Lemma length_stars a w n s : widget a w n s -> length (stars s) = n.
Proof.
  intros Hw. pose proof (marks_widget "selected" _ _ _ _ Hw) as H.
  apply (f_equal (@length bool)) in H. unfold marks in H.
  rewrite !length_map, length_seq in H. assumption.
Qed.

Lemma call_get_widget a w n s : widget a w n s -> call_get s = Normal (Value (get_count a s)).
Proof.
  intros Hw. unfold call_get. rewrite (starRating_get a) by apply (wd_data _ _ _ _ Hw).
  reflexivity.
Qed.

Lemma run_app ops1 ops2 s : run (ops1 ++ ops2) s = run ops2 (run ops1 s).
Proof. apply fold_left_app. Qed.

End Interface.

Section Prefix.

Implicit Types (s : page) (a : addr) (w n : nat).

(** Without an instance only the getter path fails; any other name is
    ignored. *)
Lemma starRating_no_instance name args s :
  data s = None -> name <> "get" ->
  starRating (JStr name) args s =
  (Normal (if negb (underscore name) && negb (String.eqb name "init")
           then Chain else Value Undefined), s).
Proof.
  intros Hd Hn. unfold starRating. rewrite Hd.
  destruct (negb (underscore name) && negb (String.eqb name "init")); [|reflexivity].
  destruct ((length args =? 0) && existsb (String.eqb name) getters) eqn:E;
    [|reflexivity].
  apply andb_true_iff in E as [_ E]. unfold getters in E. simpl in E.
  rewrite orb_false_r in E. apply String.eqb_eq in E. contradiction.
Qed.

Lemma good_wf s : good s -> wf s.
Proof.
  unfold good, wf. destruct (data s) as [a|]; [|trivial].
  intros (w & n & Hw & _). eauto.
Qed.

Lemma rating_ok_marks a w n s s' :
  get_count a s' = get_count a s ->
  (forall x, marked "selected" [w; x] (el s') = marked "selected" [w; x] (el s)) ->
  rating_ok a w n s -> rating_ok a w n s'.
Proof.
  intros Hc Hm. unfold rating_ok, selected_upto. rewrite Hc.
  destruct (get_count a s); [| trivial |].
  - intros H x Hx. rewrite Hm. apply H, Hx.
  - intros [Hk H]. split; [assumption|]. intros x Hx. rewrite Hm. apply H, Hx.
Qed.

Lemma marked_created o s x :
  marked "selected" [length (children (el s)); x] (el (created o s)) = false.
Proof.
  unfold marked, created. cbn [el append node_at children].
  rewrite lookup_app_r by lia. rewrite Nat.sub_diag. cbn [lookup list_lookup children].
  destruct (replicate _ li !! x) as [k|] eqn:E; [|reflexivity].
  apply lookup_replicate in E as [-> _]. reflexivity.
Qed.

Lemma good_created o s : events s = [] -> good (created o s).
Proof.
  intros He. unfold good. cbn [data created].
  eexists _, _. split; [apply widget_created; assumption|].
  unfold rating_ok, get_count. cbn [heap created].
  rewrite lookup_app_r by lia. rewrite Nat.sub_diag. cbn.
  intros x _. apply marked_created.
Qed.

Lemma small_wstep x s : small s -> small (wstep x s).
Proof.
  intros Hs. destruct x; cbn [wstep];
    first [apply small_starRating | apply small_trigger]; assumption.
Qed.

Lemma good_wstep x s :
  small s -> good s -> in_range x s = true -> good (wstep x s).
Proof.
  intros Hsm Hg Hr. unfold good in Hg. destruct (data s) as [a|] eqn:Hd.
  - destruct Hg as (w & n & Hw & Hok).
    pose proof (wd_count _ _ _ _ Hw) as Hn.
    pose proof (star_count_widget _ _ _ _ Hw) as Hsc.
    destruct x as [o|k| |i icon| |]; cbn [wstep in_range] in *.
    + unfold create. rewrite starRating_create_again;
        [|assumption|unfold initialized; rewrite Hd; reflexivity].
      unfold good. simpl. rewrite Hd. eauto.
    + unfold initialized in Hr. rewrite Hd in Hr. simpl in Hr.
      apply andb_true_iff in Hr as [H1 H2].
      apply Z.leb_le in H1, H2.
      destruct (set_in_range a w n s k Hw) as (s' & E & Hw' & Hc & Hsel);
        [lia | apply (in_range_decimal s); [assumption | lia] |].
      unfold call_set. rewrite (starRating_set a), E by assumption. simpl.
      unfold good. rewrite (wd_data _ _ _ _ Hw'). exists w, n.
      split; [assumption|]. unfold rating_ok. rewrite Hc. split; [lia | assumption].
    + unfold call_reset. rewrite (starRating_reset a) by assumption. simpl.
      destruct (reset_spec a w n s Hw) as (Hw' & Hc & Hsel).
      unfold good. rewrite (wd_data _ _ _ _ Hw'). exists w, n.
      split; [assumption|]. unfold rating_ok. rewrite Hc. assumption.
    + apply andb_true_iff in Hr as [H1 H2]. apply Z.leb_le in H1, H2.
      destruct (star_widget a w n s i Hw) as [E1 E2]; [lia|].
      destruct (trigger_click_star a w n s (i - 1)
                  (if icon then star_icon i s else star i s) Hw)
        as (Hw' & Hc & Hsel); [lia | destruct icon; auto |].
      replace (S (i - 1)) with i in * by lia.
      unfold good, click. rewrite (wd_data _ _ _ _ Hw'). exists w, n.
      split; [assumption|]. unfold rating_ok. rewrite Hc.
      rewrite Nat2Z.id. split; [lia | assumption].
    + unfold call_disable. rewrite (starRating_disable a) by assumption. simpl.
      pose proof (widget_disable a w n a s Hw) as Hw'.
      unfold good. rewrite (wd_data _ _ _ _ Hw'). exists w, n.
      split; [assumption|]. apply (rating_ok_marks a w n s); [reflexivity | | assumption].
      intros y. apply disable_spec. discriminate.
    + unfold call_enable. rewrite (starRating_enable a) by assumption. simpl.
      pose proof (widget_enable a w n a s Hw) as Hw'.
      unfold good. rewrite (wd_data _ _ _ _ Hw'). exists w, n.
      split; [assumption|]. apply (rating_ok_marks a w n s); [reflexivity | | assumption].
      intros y. apply enable_spec. discriminate.
  - assert (good s) as Hs by (unfold good; rewrite Hd; assumption).
    destruct x as [o|k| |i icon| |]; cbn [wstep in_range] in *.
    + unfold create. rewrite starRating_create by assumption.
      apply good_created. assumption.
    + unfold call_set. rewrite starRating_no_instance by (assumption || discriminate).
      assumption.
    + unfold call_reset. rewrite starRating_no_instance by (assumption || discriminate).
      assumption.
    + unfold star_count in Hr. rewrite Hd in Hr.
      apply andb_true_iff in Hr as [H1 H2]. apply Z.leb_le in H1, H2. lia.
    + unfold call_disable. rewrite starRating_no_instance by (assumption || discriminate).
      assumption.
    + unfold call_enable. rewrite starRating_no_instance by (assumption || discriminate).
      assumption.
Qed.

Lemma good_wrun xs : forall s s',
  small s -> good s -> wrun xs s = Some s' -> good s'.
Proof.
  induction xs as [|x xs IH]; intros s s' Hs Hg E; simpl in E.
  - injection E as <-. assumption.
  - destruct (in_range x s) eqn:Hr; [|discriminate].
    eapply IH; [| |eassumption].
    + apply small_wstep. assumption.
    + apply good_wstep; assumption.
Qed.

Lemma good_prefix_invariant s : good s -> prefix_invariant s.
Proof.
  unfold good, prefix_invariant, initialized.
  destruct (data s) as [a|] eqn:Hd; [|discriminate].
  intros (w & n & Hw & Hok) _.
  rewrite (call_get_widget _ _ _ _ Hw), (length_stars _ _ _ _ Hw).
  unfold rating_ok in Hok.
  pose proof (wd_count _ _ _ _ Hw) as Hn.
  rewrite (star_count_widget _ _ _ _ Hw).
  destruct (get_count a s) as [| |k]; [| contradiction |].
  - rewrite (marks_selected_upto a w n s 0 Hw) by (lia || assumption).
    simpl. f_equal. lia.
  - destruct Hok as [Hk Hsel]. split; [lia|].
    apply (marks_selected_upto a w n s _ Hw); [lia | assumption].
Qed.

End Prefix.

(** ** Claims *)

(** C2. On an initialized widget, [set(n)] with [n] in [1, starCount]
    completes and a following [get()] returns [n]. *)
Theorem set_then_get (c : node) (ops : list op) (n : Z) :
  let s := run ops (fresh c) in
  initialized s = true ->
  (1 <= n <= star_count s)%Z ->
  fst (starRating (JStr "set") [n] s) = Normal Chain /\
  call_get (call_set n s) = Normal (Value (Num n)).
Proof.
  intros s Hi Hn.
  destruct (initialized_widget s (wf_run ops _ (wf_fresh c)) Hi) as (a & w & k & Hw & Hk).
  destruct (set_in_range a w k s n Hw) as (s' & E & Hw' & Hc & _);
    [lia | apply (in_range_decimal s); [apply small_run, small_fresh | assumption] |].
  unfold call_set. rewrite (starRating_set a) by apply (wd_data _ _ _ _ Hw).
  rewrite E. simpl. split; [reflexivity|].
  rewrite (call_get_widget _ _ _ _ Hw'), Hc. reflexivity.
Qed.

Lemma set_then_get_witness :
  call_get (call_set 3 (run [Call (JObj (Some (Count 4 eq_refl))) []] (fresh (div [])))) =
  Normal (Value (Num 3)).
Proof.
  apply (set_then_get (div []) [Call (JObj (Some (Count 4 eq_refl))) []] 3%Z).
  - reflexivity.
  - vm_compute. split; discriminate.
Defined.

(** C3. On an initialized widget, a click on the star at position [i] (on
    the [li] or on the icon inside it) marks the stars 1..i selected,
    unmarks the stars above, and records [i], the 1-based index of the
    clicked [li] among the [li] of the list at the time of the click:
    [get()] returns [i] afterwards. *)
Theorem click_star_selects_prefix (c : node) (ops : list op) (i : nat) (target : list nat) :
  let s := run ops (fresh c) in
  initialized s = true ->
  (1 <= Z.of_nat i <= star_count s)%Z ->
  target = star i s \/ target = star_icon i s ->
  let s' := click target s in
  marks "selected" s' =
    replicate i true ++ replicate (Z.to_nat (star_count s) - i) false /\
  call_get s' = Normal (Value (Num (Z.of_nat i))).
Proof.
  intros s Hi Hn Ht s'.
  destruct (initialized_widget s (wf_run ops _ (wf_fresh c)) Hi) as (a & w & k & Hw & Hk).
  destruct (star_widget a w k s i Hw) as [E1 E2]; [lia|].
  rewrite E1, E2 in Ht.
  destruct (trigger_click_star a w k s (i - 1) target Hw) as (Hw' & Hc & Hsel);
    [lia | assumption |].
  replace (S (i - 1)) with i in * by lia. fold (click target s) in Hw', Hc, Hsel.
  fold s' in Hw', Hc, Hsel. split.
  - rewrite Hk. apply (marks_selected_upto a w k s' i Hw'); [lia | assumption].
  - rewrite (call_get_widget _ _ _ _ Hw'), Hc. reflexivity.
Qed.

Lemma click_star_selects_prefix_witness :
  let s := run [Call (JObj (Some (Count 4 eq_refl))) []] (fresh (div [Elem "p" [] []])) in
  marks "selected" (click [1; 2; 0] s) = [true; true; true; false] /\
  call_get (click [1; 2; 0] s) = Normal (Value (Num 3)).
Proof.
  apply (click_star_selects_prefix (div [Elem "p" [] []])
           [Call (JObj (Some (Count 4 eq_refl))) []] 3 [1; 2; 0]).
  - reflexivity.
  - vm_compute. split; discriminate.
  - right. reflexivity.
Defined.

(** C4. On an initialized widget, after any sequence of [set(n)] calls,
    [reset()] leaves no star marked selected and a following [get()]
    returns [null]. *)
Theorem reset_clears (c : node) (ops : list op) (ns : list Z) :
  let s0 := run ops (fresh c) in
  initialized s0 = true ->
  let s := fold_left (fun s1 n => call_set n s1) ns s0 in
  let s' := call_reset s in
  length (stars s') = Z.to_nat (star_count s0) /\
  marks "selected" s' = replicate (length (stars s')) false /\
  call_get s' = Normal (Value Null).
Proof.
  intros s0 Hi s s'.
  assert (s = run (ops ++ map (fun n => Call (JStr "set") [n]) ns) (fresh c)) as Es.
  { rewrite run_app. fold s0. unfold s. generalize s0. clear.
    induction ns as [|n ns IH]; intros s0; simpl; [reflexivity | apply IH]. }
  destruct (initialized_widget s0 (wf_run ops _ (wf_fresh c)) Hi) as (a & w & k & Hw0 & Hk).
  assert (widget a w k s) as Hw.
  { unfold s. generalize s0 Hw0. clear.
    induction ns as [|n ns IH]; intros s0 Hw0; simpl; [assumption|].
    apply IH. unfold call_set.
    rewrite (starRating_set a) by apply (wd_data _ _ _ _ Hw0).
    destruct (_setStarCount a (Num n) s0) as [s1|e] eqn:E; simpl; [|assumption].
    eapply widget_set; eassumption. }
  destruct (reset_spec a w k s Hw) as (Hw' & Hc & Hsel).
  assert (s' = _resetStarCount a s) as E'.
  { unfold s', call_reset. rewrite (starRating_reset a) by apply (wd_data _ _ _ _ Hw).
    reflexivity. }
  rewrite <- E' in Hw', Hc, Hsel.
  rewrite (length_stars _ _ _ _ Hw'). split; [congruence|]. split.
  - rewrite (marks_selected_upto a w k s' 0 Hw') by (lia || assumption).
    simpl. f_equal. lia.
  - rewrite (call_get_widget _ _ _ _ Hw'), Hc. reflexivity.
Qed.

Lemma reset_clears_witness :
  let s := run [Call (JObj (Some (Count 4 eq_refl))) []; Call (JStr "set") [3%Z]] (fresh (div [])) in
  marks "selected" s = [true; true; true; false] /\
  marks "selected" (call_reset (call_set 2 s)) = [false; false; false; false] /\
  call_get (call_reset (call_set 2 s)) = Normal (Value Null).
Proof.
  split; [reflexivity|].
  apply (reset_clears (div []) [Call (JObj (Some (Count 4 eq_refl))) []; Call (JStr "set") [3%Z]] [2%Z]).
  reflexivity.
Defined.

(** C10, as the code has it. On an initialized widget, [set(n)] with [n]
    outside [1, starCount] and of magnitude below 10^21 (so that [n]
    prints in decimal digits in the selector) changes no class mark of any
    star, and still records [n]: a following [get()] returns [n]. *)
Theorem set_out_of_range_keeps_marks (c : node) (ops : list op) (n : Z) :
  let s := run ops (fresh c) in
  initialized s = true ->
  ~ (1 <= n <= star_count s)%Z ->
  (Z.abs n < exponent_form)%Z ->
  let s' := call_set n s in
  fst (starRating (JStr "set") [n] s) = Normal Chain /\
  (forall cls, marks cls s' = marks cls s) /\
  call_get s' = Normal (Value (Num n)).
Proof.
  intros s Hi Hn Hd s'.
  destruct (initialized_widget s (wf_run ops _ (wf_fresh c)) Hi) as (a & w & k & Hw & Hk).
  destruct (set_out_of_range a w k s n Hw) as (s1 & E & Hw' & Hc & Hm);
    [lia | assumption |].
  assert (starRating (JStr "set") [n] s = (Normal Chain, s1)) as Es.
  { rewrite (starRating_set a) by apply (wd_data _ _ _ _ Hw). rewrite E. reflexivity. }
  assert (s' = s1) as -> by (unfold s', call_set; rewrite Es; reflexivity).
  rewrite Es. split; [reflexivity|]. split.
  - intros cls. rewrite (marks_widget _ _ _ _ _ Hw'), (marks_widget _ _ _ _ _ Hw).
    apply map_ext. intros x. apply Hm.
  - rewrite (call_get_widget _ _ _ _ Hw'), Hc. reflexivity.
Qed.

Lemma set_out_of_range_keeps_marks_witness :
  let s := run [Call (JObj (Some (Count 4 eq_refl))) []; Call (JStr "set") [3%Z]] (fresh (div [])) in
  marks "selected" (call_set 7 s) = [true; true; true; false] /\
  call_get (call_set 7 s) = Normal (Value (Num 7)).
Proof.
  pose proof (set_out_of_range_keeps_marks (div [])
    [Call (JObj (Some (Count 4 eq_refl))) []; Call (JStr "set") [3%Z]] 7%Z) as H.
  cbv zeta in H. destruct H as (_ & H1 & H2).
  - reflexivity.
  - vm_compute. intros [_ H]. apply H. reflexivity.
  - reflexivity.
  - split; [rewrite H1; reflexivity | assumption].
Defined.

(** C10, as stated, fails: 10^21 is outside [1, 5], but the selector built
    from it reads ["li:nth-of-type(1e+21)"], [find] raises before the
    rating is assigned, and [get()] still returns the 3 set before. *)
Lemma set_exponent_form_not_recorded :
  let s := run [Call (JObj (Some (Count 5 eq_refl))) []; Call (JStr "set") [3%Z]]
               (fresh (div [])) in
  ~ (1 <= 10 ^ 21 <= star_count s)%Z /\
  fst (starRating (JStr "set") [(10 ^ 21)%Z] s) = Throw SelectorError /\
  call_get (call_set (10 ^ 21) s) = Normal (Value (Num 3)) /\
  call_get (call_set (10 ^ 21) s) <> Normal (Value (Num (10 ^ 21))).
Proof.
  vm_compute. split; [intros [_ H]; apply H; reflexivity|].
  split; [reflexivity|]. split; [reflexivity | discriminate].
Qed.




(** C5, as the code has it. On a container without an instance,
    creation appends one [ul.star-rating] after the children the
    container already has, which stay as they are; the list holds exactly
    [starCount] newly built stars. *)
Theorem create_appends (c : node) (ops : list op) (o : jsval) :
  let s := run ops (fresh c) in
  initialized s = false ->
  is_options o = true ->
  let n := Z.to_nat (starCount (extend defaults o)) in
  let s' := create o s in
  children (el s') = children (el s) ++ [Elem "ul" ["star-rating"] (replicate n li)] /\
  tag (el s') = tag (el s) /\ classes (el s') = classes (el s) /\
  stars s' = replicate n li /\
  initialized s' = true.
Proof.
  intros s Hi Ho n s'.
  pose proof (wf_run ops _ (wf_fresh c)) as Hwf. fold s in Hwf.
  unfold wf in Hwf. unfold initialized in Hi.
  destruct (data s) eqn:Hd; [discriminate|].
  assert (s' = created o s) as ->.
  { unfold s', create. rewrite starRating_create by assumption. reflexivity. }
  repeat split.
  pose proof (widget_created o s Hwf) as Hw. fold n in Hw.
  unfold stars. destruct n as [|n'] eqn:En.
  - unfold wrapper. rewrite (wd_events _ _ _ _ Hw). reflexivity.
  - rewrite (wrapper_widget _ _ _ _ Hw) by lia.
    unfold created. cbn [el append node_at children].
    rewrite lookup_app_r by lia. rewrite Nat.sub_diag. cbn.
    fold n. rewrite En. reflexivity.
Qed.

Lemma create_appends_witness :
  children (el (create (JObj (Some (Count 2 eq_refl))) (fresh (div [Elem "p" [] []])))) =
  [Elem "p" [] []; Elem "ul" ["star-rating"] [li; li]].
Proof.
  pose proof (create_appends (div [Elem "p" [] []]) [] (JObj (Some (Count 2 eq_refl)))) as H.
  cbv zeta in H. destruct H as [H _].
  - reflexivity.
  - reflexivity.
  - exact H.
Defined.

(** C5, as stated, fails: a paragraph the container held before creation
    is still there afterwards, next to the new list. *)
Lemma create_keeps_existing_content :
  let s' := create (JObj (Some (Count 2 eq_refl))) (fresh (div [Elem "p" [] []])) in
  In (Elem "p" [] []) (children (el s')) /\
  children (el s') <> [Elem "ul" ["star-rating"] [li; li]].
Proof. vm_compute. split; [left; reflexivity | discriminate]. Qed.

(** C6. Before creation the getter path of the entry point reads a
    property of [undefined]: ['get'] raises a [TypeError]. The five other
    commands go through the guarded path and do nothing. *)
Theorem get_before_create_throws (c : node) :
  starRating (JStr "get") [] (fresh c) = (Throw TypeError, fresh c) /\
  Forall (fun name => forall args,
            starRating (JStr name) args (fresh c) = (Normal Chain, fresh c))
         ["set"; "reset"; "disable"; "enable"; "destroy"].
Proof.
  split; [reflexivity|].
  repeat constructor; intros args;
    rewrite starRating_no_instance by (reflexivity || discriminate); reflexivity.
Qed.

(** C7, as the code has it. As long as every [set(n)] has [n] within
    [1, starCount] and every click is on a star, the selected stars are the
    first [selected] ones and [selected] is [null] or within
    [1, starCount], in every state reached by creation, [set], [reset],
    click, [disable] and [enable]. *)
Theorem prefix_invariant_in_range (c : node) (xs : list widget_op) (s : page) :
  wrun xs (fresh c) = Some s -> prefix_invariant s.
Proof.
  intros E. apply good_prefix_invariant.
  eapply good_wrun; [apply small_fresh | |eassumption]. reflexivity.
Qed.

Lemma prefix_invariant_in_range_witness :
  prefix_invariant
    (click [1; 3] (call_enable (call_disable (call_reset (call_set 2
       (create (JObj (Some (Count 4 eq_refl))) (fresh (div [Elem "p" [] []])))))))).
Proof.
  apply (prefix_invariant_in_range (div [Elem "p" [] []])
           [WCreate (JObj (Some (Count 4 eq_refl))); WSet 2; WReset; WDisable; WEnable;
            WClick 4 false]).
  reflexivity.
Defined.

(** C7, as stated, fails: [set(7)] on a five-star widget records 7, which
    is neither unset nor within [1, 5]. *)
Lemma set_out_of_range_breaks_invariant :
  ~ prefix_invariant (call_set 7 (create (JObj (Some (Count 5 eq_refl))) (fresh (div [])))).
Proof.
  intros H. specialize (H eq_refl). vm_compute in H.
  destruct H as [[_ H] _]. apply H. reflexivity.
Qed.

(** C8. On a container that holds an instance, a further creation call
    builds nothing: the page (stars, data slot, handlers, the instance and
    its rating) is exactly what it was. *)
Theorem create_again_is_noop (s : page) (o : jsval) (args : list Z) :
  initialized s = true ->
  is_options o = true ->
  starRating o args s = (Normal Chain, s).
Proof. intros Hi Ho. apply starRating_create_again; assumption. Qed.

Lemma create_again_is_noop_witness :
  let s := call_set 3 (create (JObj (Some (Count 4 eq_refl))) (fresh (div []))) in
  starRating (JObj (Some (Count 7 eq_refl))) [] s = (Normal Chain, s).
Proof.
  apply (create_again_is_noop
           (call_set 3 (create (JObj (Some (Count 4 eq_refl))) (fresh (div []))))
           (JObj (Some (Count 7 eq_refl))) []).
  - reflexivity.
  - reflexivity.
Defined.

(** C9. A command whose name starts with an underscore, and the name
    ["init"], never reach a method of the instance: whatever the page and
    the arguments, the call returns [undefined] and leaves the page as it
    was. A call that does anything else has a name that is neither. *)
Theorem underscore_not_dispatched (rest : string) (args : list Z) (s : page) :
  starRating (JStr (String "_" rest)) args s = (Normal (Value Undefined), s) /\
  starRating (JStr "init") args s = (Normal (Value Undefined), s) /\
  forall name,
    starRating (JStr name) args s <> (Normal (Value Undefined), s) ->
    underscore name = false /\ name <> "init".
Proof.
  split; [reflexivity|]. split; [reflexivity|].
  intros name Hne. unfold starRating in Hne.
  destruct (underscore name) eqn:Hu; [exfalso; apply Hne; reflexivity|].
  split; [reflexivity|]. intros ->. apply Hne. reflexivity.
Qed.

(** The private builder is a member of the prototype and would add a
    second list if it were called; through the entry point it is not. *)
Example _build_not_reachable :
  let s := create JUndefined (fresh (div [])) in
  member "_build" = Some M_build /\
  length (children (el (_build 0 s))) = 2 /\
  starRating (JStr "_build") [] s = (Normal (Value Undefined), s).
Proof. vm_compute. repeat split. Qed.

(** * Further properties of the source *)

Section Dispatch.

Implicit Types (s : page) (a : addr) (w n : nat).

Lemma member_name name m : member name = Some m -> name = method_name m.
Proof.
  intros Hm. apply member_in in Hm. unfold prototype in Hm. simpl in Hm.
  repeat (destruct Hm as [Hm|Hm]; [injection Hm as <- <-; reflexivity |]).
  destruct Hm.
Qed.

(** A command either leaves the page alone or runs one public method of
    the instance in the data slot. *)
Lemma starRating_str_cases name args s :
  snd (starRating (JStr name) args s) = s \/
  exists a m v, data s = Some a /\ member name = Some m /\ public m = true /\
    apply_method m a args s = Normal (v, snd (starRating (JStr name) args s)).
Proof.
  unfold starRating.
  destruct (negb (underscore name) && negb (String.eqb name "init")) eqn:Hg;
    [|left; reflexivity].
  apply andb_true_iff in Hg as [Hu _]. apply negb_true_iff in Hu.
  destruct (data s) as [a|] eqn:Hd.
  - destruct (member name) as [m|] eqn:Hm.
    + pose proof (member_public name m Hu Hm) as Hp.
      destruct (apply_method m a args s) as [[v s']|e] eqn:E.
      * right. exists a, m, v.
        destruct (_ && _); simpl; auto.
      * left. destruct (_ && _); reflexivity.
    + left. destruct (_ && _); reflexivity.
  - left. destruct (_ && _); reflexivity.
Qed.

Lemma trigger_no_handlers ev target s : events s = [] -> trigger ev target s = s.
Proof.
  intros He. unfold trigger. rewrite He. simpl.
  destruct (node_at target (el s)); [|reflexivity].
  induction (List.filter _ (bubble target)) as [|m ms IH]; simpl; [reflexivity | assumption].
Qed.

Lemma length_handlers_for n a (wp : list nat) :
  length (handlers_for n a wp) = 3 * n.
Proof.
  unfold handlers_for. induction n as [|n IH]; simpl; [reflexivity|].
  rewrite IH. lia.
Qed.

Lemma starRating_destroy a args s :
  data s = Some a ->
  starRating (JStr "destroy") args s = (Normal Chain, destroy a s).
Proof.
  intros Hd. unfold starRating. rewrite Hd. cbn.
  destruct (length args =? 0); reflexivity.
Qed.

End Dispatch.



(** X2. After [destroy], a creation call builds a new widget as on an
    empty container: the container holds the new list and nothing else,
    the list holds [starCount] unmarked stars, and [get()] returns [null]
    whatever the rating of the destroyed instance was. *)
Theorem create_after_destroy (s : page) (o : jsval) :
  initialized s = true ->
  is_options o = true ->
  let n := Z.to_nat (starCount (extend defaults o)) in
  let s' := create o (call_destroy s) in
  el s' = Elem (tag (el s)) (classes (el s))
               [Elem "ul" ["star-rating"] (replicate n li)] /\
  stars s' = replicate n li /\
  star_count s' = starCount (extend defaults o) /\
  call_get s' = Normal (Value Null) /\
  length (events s') = 3 * n.
Proof.
  intros Hi Ho n s'. unfold initialized in Hi.
  destruct (data s) as [a|] eqn:Hd; [|discriminate].
  assert (s' = created o (destroy a s)) as ->.
  { unfold s', create, call_destroy.
    rewrite (starRating_destroy a) by assumption. cbn [snd].
    rewrite starRating_create by (assumption || reflexivity). reflexivity. }
  pose proof (widget_created o (destroy a s) eq_refl) as Hw. fold n in Hw.
  split; [reflexivity|]. split; [|split; [|split]].
  - unfold stars. destruct n as [|n'] eqn:En.
    + unfold wrapper. rewrite (wd_events _ _ _ _ Hw). reflexivity.
    + rewrite (wrapper_widget _ _ _ _ Hw) by lia.
      unfold created. cbn. fold n. rewrite En. reflexivity.
  - rewrite (star_count_widget _ _ _ _ Hw). unfold get_starCount, created.
    cbn [heap]. rewrite lookup_app_r by lia. rewrite Nat.sub_diag. reflexivity.
  - rewrite (call_get_widget _ _ _ _ Hw). unfold get_count, created.
    cbn [heap]. rewrite lookup_app_r by lia. rewrite Nat.sub_diag. reflexivity.
  - rewrite (wd_events _ _ _ _ Hw). apply length_handlers_for.
Qed.

Lemma create_after_destroy_witness :
  let s := call_set 2 (create (JObj (Some (Count 3 eq_refl))) (fresh (div [Elem "p" [] []]))) in
  el (create JUndefined (call_destroy s)) =
    div [Elem "ul" ["star-rating"] [li; li; li; li; li]] /\
  call_get (create JUndefined (call_destroy s)) = Normal (Value Null).
Proof.
  pose proof (create_after_destroy
    (call_set 2 (create (JObj (Some (Count 3 eq_refl))) (fresh (div [Elem "p" [] []]))))
    JUndefined) as H.
  cbv zeta in H. destruct H as (H1 & _ & _ & H2 & _).
  - reflexivity.
  - reflexivity.
  - split; [exact H1 | exact H2].
Defined.

Section Footprint.

Implicit Types (s : page) (a : addr) (w n : nat).

(** The class a handler writes. *)
Lemma run_handler_keeps h this s :
  skeleton (el (run_handler h this s)) = skeleton (el s) /\
  data (run_handler h this s) = data s /\
  events (run_handler h this s) = events s /\
  forall c q,
    c <> touches (Event (h_event h) this) ->
    marked c q (el (run_handler h this s)) = marked c q (el s).
Proof.
  unfold run_handler. destruct (h_event h); cbn [touches].
  - split; [apply skeleton_addClass|]. split; [reflexivity|]. split; [reflexivity|].
    intros c q Hc. apply marked_addClass_other. assumption.
  - split; [cbn [el with_el]; rewrite !skeleton_removeClass; reflexivity|].
    split; [reflexivity|]. split; [reflexivity|].
    intros c q Hc. cbn [el with_el].
    rewrite !marked_removeClass_other by assumption. reflexivity.
  - split; [cbn [el with_el set_count];
            rewrite skeleton_removeClass, skeleton_addClass; reflexivity|].
    split; [reflexivity|]. split; [reflexivity|].
    intros c q Hc. cbn [el with_el set_count].
    rewrite marked_removeClass_other, marked_addClass_other by assumption.
    reflexivity.
Qed.

Lemma trigger_keeps ev target s :
  skeleton (el (trigger ev target s)) = skeleton (el s) /\
  data (trigger ev target s) = data s /\
  events (trigger ev target s) = events s /\
  forall c q,
    c <> touches (Event ev target) ->
    marked c q (el (trigger ev target s)) = marked c q (el s).
Proof.
  unfold trigger. destruct (node_at target (el s)); [|repeat split; reflexivity].
  assert (Forall (fun h => h_event h = ev)
            (List.filter (fun h => event_eqb (h_event h) ev) (events s))) as Hb.
  { apply Forall_forall. intros h Hin. apply list_elem_of_In, filter_In in Hin as [_ E].
    destruct (h_event h), ev; try discriminate E; reflexivity. }
  revert Hb. generalize (List.filter (fun h => event_eqb (h_event h) ev) (events s)).
  generalize (List.filter (matches (el s) (Tag "li")) (bubble target)).
  intros matched bound Hb. revert s.
  induction matched as [|m ms IH]; intros s; simpl; [repeat split; reflexivity|].
  assert (forall s0,
    let s1 := fold_left (fun s2 h => run_handler h m s2) bound s0 in
    skeleton (el s1) = skeleton (el s0) /\ data s1 = data s0 /\
    events s1 = events s0 /\
    forall c q, c <> touches (Event ev target) ->
      marked c q (el s1) = marked c q (el s0)) as Hinner.
  { clear IH. induction Hb as [|h hs Hh Hhs IHh]; intros s0; simpl;
      [repeat split; reflexivity|].
    destruct (run_handler_keeps h m s0) as (K1 & K2 & K3 & K4).
    destruct (IHh (run_handler h m s0)) as (J1 & J2 & J3 & J4).
    split; [congruence|]. split; [congruence|]. split; [congruence|].
    intros c q Hc. rewrite J4 by assumption. apply K4.
    rewrite Hh. destruct ev; exact Hc. }
  destruct (Hinner s) as (K1 & K2 & K3 & K4).
  destruct (IH (fold_left (fun s2 h => run_handler h m s2) bound s))
    as (J1 & J2 & J3 & J4).
  split; [congruence|]. split; [congruence|]. split; [congruence|].
  intros c q Hc. rewrite J4 by assumption. apply K4. assumption.
Qed.

Lemma apply_method_keeps m a args s v s' :
  public m = true -> m <> Mdestroy ->
  apply_method m a args s = Normal (v, s') ->
  skeleton (el s') = skeleton (el s) /\ data s' = data s /\
  events s' = events s /\
  forall c q,
    c <> touches (Call (JStr (method_name m)) args) ->
    marked c q (el s') = marked c q (el s).
Proof.
  intros Hp Hm E. destruct m; try discriminate Hp; try contradiction;
    cbn [apply_method] in E.
  - unfold set, _setStarCount in E.
    destruct (nth_of_type_li (arg0 args)) as [sel|e]; [|discriminate E].
    injection E as _ <-. cbn [el data events with_el set_count].
    split; [rewrite skeleton_removeClass, skeleton_addClass; reflexivity|].
    split; [reflexivity|]. split; [reflexivity|].
    intros c q Hc. cbn in Hc.
    rewrite marked_removeClass_other, marked_addClass_other by assumption.
    reflexivity.
  - injection E as _ <-. unfold reset, _resetStarCount.
    cbn [el data events with_el set_count].
    split; [apply skeleton_removeClass|]. split; [reflexivity|]. split; [reflexivity|].
    intros c q Hc. cbn in Hc. apply marked_removeClass_other. assumption.
  - injection E as _ <-. repeat split; reflexivity.
  - injection E as _ <-. unfold disable, _disableStarCount.
    cbn [el data events with_el].
    split; [apply skeleton_addClass|]. split; [reflexivity|]. split; [reflexivity|].
    intros c q Hc. cbn in Hc. apply marked_addClass_other. assumption.
  - injection E as _ <-. unfold enable, _enableStarCount.
    cbn [el data events with_el].
    split; [apply skeleton_removeClass|]. split; [reflexivity|]. split; [reflexivity|].
    intros c q Hc. cbn in Hc. apply marked_removeClass_other. assumption.
Qed.

Lemma step_keeps x s :
  structural x = false ->
  skeleton (el (step x s)) = skeleton (el s) /\ data (step x s) = data s /\
  events (step x s) = events s /\
  forall c q, c <> touches x -> marked c q (el (step x s)) = marked c q (el s).
Proof.
  intros Hx. destruct x as [o args|ev target]; [|apply trigger_keeps].
  destruct o as [| |k|name|k]; try discriminate Hx;
    [repeat split; reflexivity|].
  cbn [structural] in Hx. cbn [step].
  destruct (starRating_str_cases name args s) as [->|(a & m & v & Hd & Hm & Hp & E)];
    [repeat split; reflexivity|].
  pose proof (member_name _ _ Hm) as ->.
  apply (apply_method_keeps m a args s v); [assumption| |assumption].
  intros ->. discriminate Hx.
Qed.

End Footprint.

(** X3. Only a creation call and the command ['destroy'] change what
    elements there are: every other call and every pointer event leaves
    the tree of elements below the container, the data slot and the bound
    handlers as they were (only class marks and the rating can change). *)
Theorem structure_kept (x : op) (s : page) :
  structural x = false ->
  skeleton (el (step x s)) = skeleton (el s) /\
  data (step x s) = data s /\
  events (step x s) = events s.
Proof.
  intros Hx. destruct (step_keeps x s Hx) as (H1 & H2 & H3 & _). auto.
Qed.

Lemma structure_kept_witness :
  let s := create (JObj (Some (Count 3 eq_refl))) (fresh (div [Elem "p" [] []])) in
  skeleton (el (step (Call (JStr "set") [9%Z]) s)) = skeleton (el s).
Proof.
  apply (structure_kept (Call (JStr "set") [9%Z])
           (create (JObj (Some (Count 3 eq_refl))) (fresh (div [Elem "p" [] []])))).
  reflexivity.
Defined.

(** X4. Each operation writes one class only: a click, [set] and [reset]
    write ["selected"], the pointer moving in or out writes ["hover"],
    [disable] and [enable] write ["disable"]. On every element of the
    container every other class is as it was; in particular selecting
    never clears a hover highlight and hovering never changes the
    selection. *)
Theorem other_classes_kept (x : op) (s : page) (c : string) (q : list nat) :
  structural x = false ->
  c <> touches x ->
  marked c q (el (step x s)) = marked c q (el s).
Proof.
  intros Hx Hc. destruct (step_keeps x s Hx) as (_ & _ & _ & H). apply H, Hc.
Qed.

Lemma other_classes_kept_witness :
  let s := trigger Mouseover [0; 1] (create (JObj (Some (Count 3 eq_refl))) (fresh (div []))) in
  marked "hover" [0; 0] (el s) = true /\
  marked "hover" [0; 0] (el (step (Event Click [0; 2]) s)) = marked "hover" [0; 0] (el s).
Proof.
  split; [reflexivity|].
  apply (other_classes_kept (Event Click [0; 2])
           (trigger Mouseover [0; 1] (create (JObj (Some (Count 3 eq_refl))) (fresh (div []))))
           "hover" [0; 0]).
  - reflexivity.
  - discriminate.
Defined.

(** X5. A call of the entry point changes the page in two cases only: a
    creation call on a container without an instance, and one of the
    commands [destroy], [set], [reset], [disable], [enable] on a container
    with one. Any other first argument (a number, an unknown or private
    name, ['get']) leaves DOM, data slot, handlers and rating untouched. *)
Theorem page_changes_only_by (o : jsval) (args : list Z) (s : page) :
  snd (starRating o args s) <> s ->
  (is_options o = true /\ initialized s = false) \/
  (exists name, o = JStr name /\ initialized s = true /\
     In name ["destroy"; "set"; "reset"; "disable"; "enable"]).
Proof.
  intros Hne. destruct (is_options o) eqn:Ho.
  - left. split; [reflexivity|]. destruct (initialized s) eqn:Hi; [|reflexivity].
    exfalso. apply Hne. rewrite starRating_create_again by assumption. reflexivity.
  - right. destruct o as [| |k|name|k]; try discriminate Ho;
      [exfalso; apply Hne; reflexivity|].
    exists name. split; [reflexivity|].
    destruct (starRating_str_cases name args s) as [E|(a & m & v & Hd & Hm & Hp & E)];
      [contradiction|].
    split; [unfold initialized; rewrite Hd; reflexivity|].
    rewrite (member_name _ _ Hm).
    destruct m; try discriminate Hp; cbn [method_name In]; auto 10.
    exfalso. apply Hne. cbn [apply_method] in E. symmetry. congruence.
Qed.

Lemma page_changes_only_by_witness :
  In "reset" ["destroy"; "set"; "reset"; "disable"; "enable"] /\
  initialized (call_set 2 (create JUndefined (fresh (div [])))) = true.
Proof.
  destruct (page_changes_only_by (JStr "reset") []
              (call_set 2 (create JUndefined (fresh (div [])))))
    as [[H _]|(name & E & Hi & Hin)].
  - vm_compute. discriminate.
  - discriminate H.
  - injection E as <-. split; assumption.
Defined.

(** X6. ['get'] works as a getter only when called without further
    arguments: with any argument it goes through the chaining path,
    returns the collection instead of the rating and, unlike the bare
    ['get'], does not raise on a container without an instance. *)
Theorem get_with_arguments_chains (args : list Z) (s : page) :
  args <> [] ->
  starRating (JStr "get") args s = (Normal Chain, s).
Proof.
  intros Ha. destruct args as [|x args]; [contradiction|].
  unfold starRating. destruct (data s); reflexivity.
Qed.

Lemma get_with_arguments_chains_witness :
  starRating (JStr "get") [0%Z] (fresh (div [])) = (Normal Chain, fresh (div [])) /\
  call_get (fresh (div [])) = Throw TypeError.
Proof.
  split; [|reflexivity].
  apply (get_with_arguments_chains [0%Z] (fresh (div []))). discriminate.
Defined.

Section Hover.

Implicit Types (s : page) (a : addr) (w n : nat).

Lemma matched_star a w n s j target :
  widget a w n s -> j < n ->
  target = [w; j] \/ target = [w; j; 0] ->
  is_Some (node_at target (el s)) /\
  List.filter (matches (el s) (Tag "li")) (bubble target) = [[w; j]].
Proof.
  intros Hw Hj Ht.
  destruct (widget_wrapper _ _ _ _ Hw) as (u & Hu & Htag & Hn & _).
  destruct (widget_star _ _ _ _ j Hw Hj) as (cs & cs' & Hstar).
  destruct (widget_icon _ _ _ _ j Hw Hj) as (cs'' & Hicon).
  split.
  - destruct Ht as [-> | ->]; [rewrite Hstar | rewrite Hicon]; eexists; reflexivity.
  - destruct Ht as [-> | ->]; unfold bubble; simpl rev;
      cbn [List.filter]; rewrite !matches_tag;
      rewrite ?Hicon, Hstar, Hu, Htag; reflexivity.
Qed.

Lemma filter_handlers ev n a (wp : list nat) :
  List.filter (fun h => event_eqb (h_event h) ev) (handlers_for n a wp) =
  replicate n {| h_event := ev; h_thiz := a; h_wrapper := wp |}.
Proof.
  unfold handlers_for. induction n as [|n IH]; [reflexivity|].
  destruct ev; simpl; f_equal; apply IH.
Qed.

Lemma trigger_star a w n s j ev target :
  widget a w n s -> j < n ->
  target = [w; j] \/ target = [w; j; 0] ->
  exists k, n = S k /\
    trigger ev target s =
    fold_left (fun s2 h => run_handler h [w; j] s2)
      (replicate (S k) {| h_event := ev; h_thiz := a; h_wrapper := [w] |}) s.
Proof.
  intros Hw Hj Ht.
  destruct (matched_star a w n s j target Hw Hj Ht) as [[nd Hnd] Hm].
  destruct n as [|k]; [lia|]. exists k. split; [reflexivity|].
  unfold trigger. rewrite Hnd, Hm, (wd_events _ _ _ _ Hw), filter_handlers.
  reflexivity.
Qed.

Lemma heap_run_handler h this s :
  h_event h <> Click -> heap (run_handler h this s) = heap s.
Proof.
  intros Hh. unfold run_handler. destruct (h_event h); [reflexivity | reflexivity |].
  contradiction.
Qed.

Lemma marked_removeClass_false c q coll t :
  marked c q t = false -> marked c q (removeClass c coll t) = false.
Proof.
  intros H. destruct (In_dec (fun x y : list nat => decide (x = y)) q coll) as [Hin|Hn].
  - apply marked_removeClass_in. assumption.
  - rewrite marked_removeClass_notin by assumption. assumption.
Qed.

(** One run of the mouseover handler for the star at position [j]. *)
Lemma run_mouseover a w n s j :
  widget a w n s -> j < n ->
  let s' := run_handler {| h_event := Mouseover; h_thiz := a; h_wrapper := [w] |}
                        [w; j] s in
  (forall x, x <= j -> marked "hover" [w; x] (el s') = true) /\
  (forall x, j < x -> marked "hover" [w; x] (el s') = marked "hover" [w; x] (el s)).
Proof.
  intros Hw Hj s'. unfold s', run_handler. cbn [h_event el with_el]. split.
  - intros x Hx. apply marked_addClass_in.
    + unfold add. apply in_or_app.
      destruct (decide (x = j)) as [->|Hne]; [right; left; reflexivity|].
      left. change [w; x] with ([w] ++ [x]). apply in_prevAll.
      exists [w; j]. split; [left; reflexivity|]. split; [reflexivity|].
      unfold position. simpl. lia.
    + destruct (widget_star _ _ _ _ x Hw) as (cs & cs' & ->); [lia|].
      eexists; reflexivity.
  - intros x Hx. apply marked_addClass_notin.
    unfold add. intros H. apply in_app_or in H as [H|H].
    + change [w; x] with ([w] ++ [x]) in H. apply in_prevAll in H.
      destruct H as (m & [<-|[]] & _ & Hlt).
      unfold position in Hlt. simpl in Hlt. lia.
    + destruct H as [H|[]]. injection H as H. lia.
Qed.

Lemma fold_mouseover a w n j : forall k s,
  widget a w n s -> j < n ->
  let s' := fold_left (fun s2 h => run_handler h [w; j] s2)
              (replicate (S k) {| h_event := Mouseover; h_thiz := a; h_wrapper := [w] |}) s in
  (forall x, x <= j -> marked "hover" [w; x] (el s') = true) /\
  (forall x, j < x -> marked "hover" [w; x] (el s') = marked "hover" [w; x] (el s)).
Proof.
  induction k as [|k IH]; intros s Hw Hj.
  - exact (run_mouseover a w n s j Hw Hj).
  - cbn [replicate fold_left].
    destruct (IH (run_handler {| h_event := Mouseover; h_thiz := a; h_wrapper := [w] |}
                    [w; j] s)) as [H1 H2];
      [apply widget_run_handler; assumption | assumption|].
    split; [exact H1|].
    intros x Hx. cbn [replicate fold_left] in H2. rewrite H2 by assumption.
    apply (run_mouseover a w n s j Hw Hj). assumption.
Qed.

(** One run of the mouseout handler for the star at position [j]. *)
Lemma run_mouseout a w n s j :
  widget a w n s -> j < n ->
  let s' := run_handler {| h_event := Mouseout; h_thiz := a; h_wrapper := [w] |}
                        [w; j] s in
  forall x, x < n -> marked "hover" [w; x] (el s') = false.
Proof.
  intros Hw Hj s' x Hx. unfold s', run_handler. cbn [h_event el with_el].
  set (t1 := removeClass "hover" (add (prevAll [[w; j]]) [[w; j]]) (el s)).
  assert (widget a w n (with_el (fun _ => t1) s)) as Hw1.
  { apply widget_with_el; [apply skeleton_removeClass | assumption]. }
  destruct (widget_wrapper _ _ _ _ Hw1) as (u1 & Hu1 & _ & Hn1 & _).
  change (node_at [w] t1 = Some u1) in Hu1.
  destruct (le_lt_dec x j) as [Hle|Hgt].
  - apply marked_removeClass_false. unfold t1. apply marked_removeClass_in.
    unfold add. apply in_or_app.
    destruct (decide (x = j)) as [->|Hne]; [right; left; reflexivity|].
    left. change [w; x] with ([w] ++ [x]). apply in_prevAll.
    exists [w; j]. split; [left; reflexivity|]. split; [reflexivity|].
    unfold position. simpl. lia.
  - apply marked_removeClass_in. unfold add. apply in_or_app. left.
    change [w; x] with ([w] ++ [x]). apply in_nextAll.
    exists [w; j]. split; [left; reflexivity|]. split; [discriminate|].
    split; [reflexivity|]. split; [unfold position; simpl; lia|].
    exists u1. split; [assumption | lia].
Qed.

Lemma fold_mouseout a w n j : forall k s,
  widget a w n s -> j < n ->
  let s' := fold_left (fun s2 h => run_handler h [w; j] s2)
              (replicate (S k) {| h_event := Mouseout; h_thiz := a; h_wrapper := [w] |}) s in
  forall x, x < n -> marked "hover" [w; x] (el s') = false.
Proof.
  induction k as [|k IH]; intros s Hw Hj.
  - exact (run_mouseout a w n s j Hw Hj).
  - cbn [replicate fold_left]. apply IH; [|assumption].
    apply widget_run_handler. assumption.
Qed.

Lemma heap_fold_handlers this hs : forall s,
  Forall (fun h => h_event h <> Click) hs ->
  heap (fold_left (fun s2 h => run_handler h this s2) hs s) = heap s.
Proof.
  induction hs as [|h hs IH]; intros s Hf; simpl; [reflexivity|].
  apply Forall_cons in Hf as [Hh Hf].
  rewrite IH by assumption. apply heap_run_handler. assumption.
Qed.

Lemma map_const_seq {A} (v : A) : forall m a0,
  map (fun _ : nat => v) (seq a0 m) = replicate m v.
Proof.
  induction m as [|m IH]; intros a0; simpl; [reflexivity|]. f_equal. apply IH.
Qed.

Lemma map_seq_prefix (f g : nat -> bool) i n :
  i <= n ->
  (forall x, x < i -> f x = true) ->
  (forall x, i <= x < n -> f x = g x) ->
  map f (seq 0 n) = replicate i true ++ drop i (map g (seq 0 n)).
Proof.
  intros Hi Hf Hg. replace n with (i + (n - i)) at 1 2 by lia.
  rewrite !seq_app, !map_app. simpl.
  rewrite drop_app_length' by (rewrite length_map, length_seq; reflexivity).
  f_equal.
  - rewrite <- (map_const_seq true i 0). apply map_ext_in.
    intros x Hx. apply in_seq in Hx. apply Hf. lia.
  - apply map_ext_in. intros x Hx. apply in_seq in Hx. apply Hg. lia.
Qed.

End Hover.

(** X7. The pointer moving onto the star at position [i] of an initialized
    widget puts the class ["hover"] on the stars 1..i. The stars above [i]
    are not touched: a highlight they already carry stays. The selection
    and the rating do not change. *)
Theorem mouseover_star_highlights (c : node) (ops : list op) (i : nat)
    (target : list nat) :
  let s := run ops (fresh c) in
  initialized s = true ->
  (1 <= Z.of_nat i <= star_count s)%Z ->
  target = star i s \/ target = star_icon i s ->
  let s' := trigger Mouseover target s in
  marks "hover" s' = replicate i true ++ drop i (marks "hover" s) /\
  marks "selected" s' = marks "selected" s /\
  call_get s' = call_get s.
Proof.
  intros s Hi Hn Ht s'.
  destruct (initialized_widget s (wf_run ops _ (wf_fresh c)) Hi) as (a & w & k & Hw & Hk).
  destruct (star_widget a w k s i Hw) as [E1 E2]; [lia|].
  rewrite E1, E2 in Ht.
  pose proof (widget_trigger a w k Mouseover target s Hw) as Hw'. fold s' in Hw'.
  destruct (trigger_star a w k s (i - 1) Mouseover target Hw) as (k' & Ek & Et);
    [lia | assumption|].
  destruct (fold_mouseover a w k (i - 1) k' s Hw) as [H1 H2]; [lia|].
  rewrite <- Et in H1, H2. fold s' in H1, H2.
  split; [|split].
  - rewrite (marks_widget _ _ _ _ _ Hw'), (marks_widget _ _ _ _ _ Hw).
    apply map_seq_prefix; [lia | |].
    + intros x Hx. apply H1. lia.
    + intros x Hx. apply H2. lia.
  - rewrite (marks_widget _ _ _ _ _ Hw'), (marks_widget _ _ _ _ _ Hw).
    apply map_ext. intros x.
    apply (trigger_keeps Mouseover target s). discriminate.
  - rewrite (call_get_widget _ _ _ _ Hw'), (call_get_widget _ _ _ _ Hw).
    unfold get_count. unfold s'. rewrite Et, heap_fold_handlers; [reflexivity|].
    apply Forall_forall. intros h Hh.
    apply elem_of_replicate in Hh as [-> _]. discriminate.
Qed.

Lemma mouseover_star_highlights_witness :
  let s := run [Call (JObj (Some (Count 4 eq_refl))) []; Call (JStr "set") [1%Z];
                Event Mouseover [0; 3]] (fresh (div [])) in
  marks "hover" s = [true; true; true; true] /\
  marks "hover" (trigger Mouseover [0; 1] s) = [true; true; true; true] /\
  call_get (trigger Mouseover [0; 1] s) = Normal (Value (Num 1)).
Proof.
  split; [reflexivity|].
  pose proof (mouseover_star_highlights (div [])
    [Call (JObj (Some (Count 4 eq_refl))) []; Call (JStr "set") [1%Z]; Event Mouseover [0; 3]]
    2 [0; 1]) as H.
  cbv zeta in H. destruct H as (H1 & _ & H3).
  - reflexivity.
  - vm_compute. split; discriminate.
  - left. reflexivity.
  - split; [rewrite H1; reflexivity | rewrite H3; reflexivity].
Defined.

(** X8. The pointer leaving any star of an initialized widget takes the
    class ["hover"] off every star of the list, below and above the star
    left. The selection and the rating do not change. *)
Theorem mouseout_star_clears (c : node) (ops : list op) (i : nat)
    (target : list nat) :
  let s := run ops (fresh c) in
  initialized s = true ->
  (1 <= Z.of_nat i <= star_count s)%Z ->
  target = star i s \/ target = star_icon i s ->
  let s' := trigger Mouseout target s in
  marks "hover" s' = replicate (Z.to_nat (star_count s)) false /\
  marks "selected" s' = marks "selected" s /\
  call_get s' = call_get s.
Proof.
  intros s Hi Hn Ht s'.
  destruct (initialized_widget s (wf_run ops _ (wf_fresh c)) Hi) as (a & w & k & Hw & Hk).
  destruct (star_widget a w k s i Hw) as [E1 E2]; [lia|].
  rewrite E1, E2 in Ht.
  pose proof (widget_trigger a w k Mouseout target s Hw) as Hw'. fold s' in Hw'.
  destruct (trigger_star a w k s (i - 1) Mouseout target Hw) as (k' & Ek & Et);
    [lia | assumption|].
  pose proof (fold_mouseout a w k (i - 1) k' s Hw) as H1.
  cbv zeta in H1. rewrite <- Et in H1. fold s' in H1.
  split; [|split].
  - rewrite (marks_widget _ _ _ _ _ Hw'), Hk.
    rewrite <- (map_const_seq false k 0). apply map_ext_in.
    intros x Hx. apply in_seq in Hx. apply H1; lia.
  - rewrite (marks_widget _ _ _ _ _ Hw'), (marks_widget _ _ _ _ _ Hw).
    apply map_ext. intros x.
    apply (trigger_keeps Mouseout target s). discriminate.
  - rewrite (call_get_widget _ _ _ _ Hw'), (call_get_widget _ _ _ _ Hw).
    unfold get_count. unfold s'. rewrite Et, heap_fold_handlers; [reflexivity|].
    apply Forall_forall. intros h Hh.
    apply elem_of_replicate in Hh as [-> _]. discriminate.
Qed.

Lemma mouseout_star_clears_witness :
  let s := run [Call (JObj (Some (Count 4 eq_refl))) []; Call (JStr "set") [1%Z];
                Event Mouseover [0; 3]] (fresh (div [])) in
  marks "hover" (trigger Mouseout [0; 1; 0] s) = [false; false; false; false] /\
  marks "selected" (trigger Mouseout [0; 1; 0] s) = [true; false; false; false].
Proof.
  pose proof (mouseout_star_clears (div [])
    [Call (JObj (Some (Count 4 eq_refl))) []; Call (JStr "set") [1%Z]; Event Mouseover [0; 3]]
    2 [0; 1; 0]) as H.
  cbv zeta in H. destruct H as (H1 & H2 & _).
  - reflexivity.
  - vm_compute. split; discriminate.
  - right. reflexivity.
  - split; [rewrite H1; reflexivity | rewrite H2; reflexivity].
Defined.

(** X9. [set(n)] with [n] in [1, starCount] redraws the selection from
    scratch: whatever marks the stars carried before (for instance after an
    out-of-range [set]), afterwards exactly the stars 1..n are marked
    selected. *)
Theorem set_selects_prefix (c : node) (ops : list op) (n : Z) :
  let s := run ops (fresh c) in
  initialized s = true ->
  (1 <= n <= star_count s)%Z ->
  marks "selected" (call_set n s) =
    replicate (Z.to_nat n) true ++
    replicate (Z.to_nat (star_count s) - Z.to_nat n) false.
Proof.
  intros s Hi Hn.
  destruct (initialized_widget s (wf_run ops _ (wf_fresh c)) Hi) as (a & w & k & Hw & Hk).
  destruct (set_in_range a w k s n Hw) as (s' & E & Hw' & _ & Hsel);
    [lia | apply (in_range_decimal s); [apply small_run, small_fresh | assumption] |].
  unfold call_set. rewrite (starRating_set a) by apply (wd_data _ _ _ _ Hw).
  rewrite E. cbn [snd]. rewrite Hk.
  apply (marks_selected_upto a w k s' _ Hw'); [lia | assumption].
Qed.

Lemma set_selects_prefix_witness :
  let s := run [Call (JObj (Some (Count 4 eq_refl))) []; Event Click [0; 3]; Call (JStr "set") [9%Z]]
               (fresh (div [])) in
  marks "selected" s = [true; true; true; true] /\
  marks "selected" (call_set 2 s) = [true; true; false; false].
Proof.
  split; [reflexivity|].
  apply (set_selects_prefix (div [])
    [Call (JObj (Some (Count 4 eq_refl))) []; Event Click [0; 3]; Call (JStr "set") [9%Z]] 2%Z).
  - reflexivity.
  - vm_compute. split; discriminate.
Defined.

(** X10. The commands select by tag name in the whole container, not in
    the widget's own list: [reset] takes ["selected"] off every [li] below
    the container, [disable] puts ["disable"] on every [ul] below it and
    [enable] takes it off every [ul], also on elements the plugin did not
    build. *)
Theorem commands_reach_whole_container (s : page) (q : list nat) (nd : node) :
  initialized s = true ->
  q <> [] ->
  node_at q (el s) = Some nd ->
  (tag nd = "li" -> marked "selected" q (el (call_reset s)) = false) /\
  (tag nd = "ul" ->
     marked "disable" q (el (call_disable s)) = true /\
     marked "disable" q (el (call_enable s)) = false).
Proof.
  intros Hi Hq Hnd. unfold initialized in Hi.
  destruct (data s) as [a|] eqn:Hd; [|discriminate].
  assert (forall t, tag nd = t -> In q (find [] (Tag t) (el s))) as Hfind.
  { intros t Ht. apply in_find_root. split.
    - apply in_descendants; [assumption|]. rewrite Hnd. eexists; reflexivity.
    - rewrite matches_tag, Hnd, Ht. apply String.eqb_refl. }
  split.
  - intros Ht. unfold call_reset. rewrite (starRating_reset a) by assumption.
    apply marked_removeClass_in. apply Hfind, Ht.
  - intros Ht. split.
    + unfold call_disable. rewrite (starRating_disable a) by assumption.
      apply marked_addClass_in; [apply Hfind, Ht|]. rewrite Hnd. eexists; reflexivity.
    + unfold call_enable. rewrite (starRating_enable a) by assumption.
      apply marked_removeClass_in. apply Hfind, Ht.
Qed.

Lemma commands_reach_whole_container_witness :
  let s := create JUndefined
             (fresh (div [Elem "ul" ["menu"; "disable"] [Elem "li" ["selected"] []]])) in
  marked "selected" [0; 0] (el s) = true /\
  marked "selected" [0; 0] (el (call_reset s)) = false /\
  marked "disable" [0] (el (call_enable s)) = false.
Proof.
  split; [reflexivity|].
  destruct (commands_reach_whole_container
    (create JUndefined
       (fresh (div [Elem "ul" ["menu"; "disable"] [Elem "li" ["selected"] []]])))
    [0; 0] (Elem "li" ["selected"] [])) as [H1 _];
    [reflexivity | discriminate | reflexivity |].
  destruct (commands_reach_whole_container
    (create JUndefined
       (fresh (div [Elem "ul" ["menu"; "disable"] [Elem "li" ["selected"] []]])))
    [0] (Elem "ul" ["menu"; "disable"] [Elem "li" ["selected"] []])) as [_ H2];
    [reflexivity | discriminate | reflexivity |].
  split; [apply H1; reflexivity | apply H2; reflexivity].
Defined.

(** X11. Handlers do not leak. In every page the plugin can reach, a
    container without an instance has no handler bound, and a container
    with one has exactly three handlers per star (one per event type for
    each turn of the loop of [_build]), every one closing over the live
    instance of the data slot and over the same [ul], which holds
    [starCount] stars. *)
Theorem handlers_match_instance (c : node) (ops : list op) :
  let s := run ops (fresh c) in
  match data s with
  | None => events s = []
  | Some a =>
      is_Some (heap s !! a) /\
      length (events s) = 3 * Z.to_nat (star_count s) /\
      length (stars s) = Z.to_nat (star_count s) /\
      exists ul,
        tag <$> node_at ul (el s) = Some "ul" /\
        forall ev,
          List.filter (fun h => event_eqb (h_event h) ev) (events s) =
          replicate (Z.to_nat (star_count s))
            {| h_event := ev; h_thiz := a; h_wrapper := ul |}
  end.
Proof.
  intros s. pose proof (wf_run ops _ (wf_fresh c)) as Hwf. fold s in Hwf.
  unfold wf in Hwf. destruct (data s) as [a|] eqn:Hd; [|assumption].
  destruct Hwf as (w & n & Hw).
  pose proof (star_count_widget _ _ _ _ Hw) as Hsc.
  pose proof (wd_count _ _ _ _ Hw) as Hn. rewrite <- Hsc in Hn.
  split; [apply (wd_heap _ _ _ _ Hw)|].
  rewrite Hn, (wd_events _ _ _ _ Hw), (length_stars _ _ _ _ Hw).
  split; [apply length_handlers_for|]. split; [reflexivity|].
  exists [w]. split.
  - destruct (widget_wrapper _ _ _ _ Hw) as (u & -> & Htag & _).
    simpl. rewrite Htag. reflexivity.
  - intros ev. apply filter_handlers.
Qed.

Section WholeContainer.

Implicit Types (s : page) (a : addr) (w n : nat).

(** The rank among the siblings of one tag grows with every sibling of
    that tag. *)
Lemma type_rank_lt t (kids : list node) x y k :
  x < y -> kids !! x = Some k -> tag k = t ->
  type_rank t kids x < type_rank t kids y.
Proof.
  intros Hxy Hk Ht. unfold type_rank. apply -> Nat.succ_lt_mono.
  rewrite <- (take_drop x (take y kids)).
  rewrite take_take, Nat.min_l by lia.
  assert (drop x (take y kids) !! 0 = Some k) as H0.
  { rewrite lookup_drop, Nat.add_0_r, lookup_take_lt by lia. assumption. }
  destruct (drop x (take y kids)) as [|k0 rest]; [discriminate H0|].
  injection H0 as ->.
  rewrite List.filter_app, length_app. simpl.
  rewrite Ht, String.eqb_refl. simpl. lia.
Qed.

(** What it takes to be found by ["li:nth-of-type(k)"]. *)
Lemma in_find_nth t k m root :
  In m (find [] (NthOfType t k) root) ->
  m <> [] /\
  exists nd par,
    node_at m root = Some nd /\ tag nd = t /\
    node_at (parent m) root = Some par /\
    children par !! position m = Some nd /\
    Z.of_nat (type_rank t (children par) (position m)) = k.
Proof.
  intros Hin. apply in_find_root in Hin as [_ Hm]. unfold matches in Hm.
  destruct (node_at m root) as [nd|] eqn:Hnd; [|discriminate Hm].
  apply andb_true_iff in Hm as [Ht Hm]. apply String.eqb_eq in Ht.
  destruct m as [|x0 m0]; [discriminate Hm|]. split; [discriminate|].
  set (m := x0 :: m0) in *.
  destruct (node_at (parent m) root) as [par|] eqn:Hp; [|discriminate Hm].
  apply Z.eqb_eq in Hm. exists nd, par.
  repeat split; try assumption.
  rewrite (path_snoc m), node_at_app, Hp in Hnd by discriminate.
  simpl in Hnd. destruct (children par !! position m); congruence.
Qed.

(** In one list of siblings at most one element is found. *)
Lemma find_nth_unique t k m m' root :
  In m (find [] (NthOfType t k) root) ->
  In m' (find [] (NthOfType t k) root) ->
  parent m' = parent m -> m' = m.
Proof.
  intros Hm Hm' Hp.
  destruct (in_find_nth _ _ _ _ Hm) as (Hne & nd & par & _ & Ht & Hpar & Hk & Hr).
  destruct (in_find_nth _ _ _ _ Hm') as (Hne' & nd' & par' & _ & Ht' & Hpar' & Hk' & Hr').
  rewrite Hp, Hpar in Hpar'. injection Hpar' as <-.
  assert (position m' = position m) as Hpos.
  { destruct (lt_eq_lt_dec (position m') (position m)) as [[Hlt|He]|Hgt];
      [|assumption|].
    - pose proof (type_rank_lt t _ _ _ _ Hlt Hk' Ht'). lia.
    - pose proof (type_rank_lt t _ _ _ _ Hgt Hk Ht). lia. }
  rewrite (path_snoc m Hne), (path_snoc m' Hne'), Hp, Hpos. reflexivity.
Qed.

(** The selection pattern, in the list of siblings of an element [m] of
    the collection [L]. *)
Lemma select_siblings (L : list (list nat)) m t j :
  In m L -> m <> [] ->
  (forall m', In m' L -> parent m' = parent m -> m' = m) ->
  is_Some (node_at (parent m ++ [j]) t) ->
  let t1 := addClass "selected" (add (prevAll L) L) t in
  let t2 := removeClass "selected" (nextAll t1 L) t1 in
  marked "selected" (parent m ++ [j]) t2 = (j <=? position m).
Proof.
  intros Hm Hne Huniq Hj t1 t2.
  destruct (Nat.leb_spec j (position m)) as [Hle|Hgt].
  - unfold t2. rewrite marked_removeClass_notin.
    + apply marked_addClass_in; [|assumption].
      unfold add. apply in_or_app.
      destruct (decide (j = position m)) as [->|Hn].
      * right. rewrite <- path_snoc by assumption. assumption.
      * left. apply in_prevAll. exists m. split; [assumption|].
        split; [reflexivity | lia].
    + rewrite in_nextAll. intros (m' & Hm' & _ & Hp & Hpos & _).
      rewrite (Huniq m' Hm' Hp) in Hpos. lia.
  - unfold t2. apply marked_removeClass_in. apply in_nextAll.
    exists m. split; [assumption|]. split; [assumption|].
    split; [reflexivity|]. split; [assumption|].
    assert (is_Some (node_at (parent m ++ [j]) t1)) as Hj1.
    { apply (is_Some_on_collection (add_class "selected")). assumption. }
    rewrite node_at_app in Hj1.
    destruct (node_at (parent m) t1) as [par|]; [|destruct Hj1; discriminate].
    exists par. split; [reflexivity|]. simpl in Hj1.
    destruct (children par !! j) eqn:E; [|destruct Hj1; discriminate].
    eapply lookup_lt_Some. eassumption.
Qed.

End WholeContainer.

(** X12. [set(n)] selects with ["li:nth-of-type(n)"] in the whole
    container. Wherever an [li] is the [n]-th [li] among its siblings, in
    the widget's list or in any other list the container holds, its
    siblings up to and including it are marked selected and its siblings
    after it are unmarked ([n] below 10^21, so that the selector is the
    one written with the digits of [n]). *)
Theorem set_selects_in_every_list (s : page) (n : Z) (m : list nat) (j : nat) :
  initialized s = true ->
  (n < exponent_form)%Z ->
  In m (find [] (NthOfType "li" n) (el s)) ->
  is_Some (node_at (parent m ++ [j]) (el s)) ->
  marked "selected" (parent m ++ [j]) (el (call_set n s)) = (j <=? position m).
Proof.
  intros Hi Hn Hm Hj. unfold initialized in Hi.
  destruct (data s) as [a|] eqn:Hd; [|discriminate].
  assert (Z.abs n < exponent_form)%Z as Habs.
  { destruct (in_find_nth _ _ _ _ Hm) as (_ & nd & par & _ & _ & _ & _ & Hr).
    unfold type_rank in Hr. lia. }
  unfold call_set. rewrite (starRating_set a) by assumption.
  unfold _setStarCount. rewrite (nth_of_type_li_small n Habs).
  cbn [snd el with_el set_count].
  apply select_siblings; try assumption.
  - apply (in_find_nth _ _ _ _ Hm).
  - intros m' Hm' Hp. eapply find_nth_unique; eassumption.
Qed.

Lemma set_selects_in_every_list_witness :
  let menu := Elem "ol" [] [Elem "li" [] []; Elem "li" [] []; Elem "li" ["selected"] []] in
  let s := create (JObj (Some (Count 4 eq_refl))) (fresh (div [menu])) in
  marked "selected" [0; 0] (el (call_set 2 s)) = true /\
  marked "selected" [0; 1] (el (call_set 2 s)) = true /\
  marked "selected" [0; 2] (el (call_set 2 s)) = false.
Proof.
  intros menu s.
  pose proof (fun j => set_selects_in_every_list s 2%Z [0; 1] j eq_refl eq_refl) as H.
  split; [|split].
  - exact (H 0 ltac:(vm_compute; auto) ltac:(vm_compute; eexists; reflexivity)).
  - exact (H 1 ltac:(vm_compute; auto) ltac:(vm_compute; eexists; reflexivity)).
  - exact (H 2 ltac:(vm_compute; auto) ltac:(vm_compute; eexists; reflexivity)).
Defined.

Section Outside.

Implicit Types (s : page) (a : addr) (w n : nat).

Lemma index_from_notin (x : list nat) : forall l z,
  ~ In x l -> index_from z x l = (-1)%Z.
Proof.
  induction l as [|y l IH]; intros z Hn; simpl; [reflexivity|].
  case_decide as E.
  - exfalso. apply Hn. left. congruence.
  - apply IH. intros H. apply Hn. right. assumption.
Qed.

Lemma in_prefixes_head j (rest p : list nat) :
  In p (prefixes (j :: rest)) -> exists r, p = j :: r.
Proof.
  simpl. intros [<-|H]; [eauto|].
  apply in_map_iff in H as (r & <- & _). eauto.
Qed.

Lemma in_prefixes_self : forall p : list nat, p <> [] -> In p (prefixes p).
Proof.
  induction p as [|i q IH]; intros Hne; [contradiction|]. simpl.
  destruct q as [|i' q']; [left; reflexivity|].
  right. apply in_map. apply IH. discriminate.
Qed.

(** One run of the click handler for an [li] that is not below the list
    of the widget. *)
Lemma run_click_outside a w n s j r :
  widget a w n s -> j <> w ->
  let s' := run_handler {| h_event := Click; h_thiz := a; h_wrapper := [w] |}
                        (j :: r) s in
  widget a w n s' /\
  get_count a s' = Num 0 /\
  forall c x, marked c [w; x] (el s') = marked c [w; x] (el s).
Proof.
  intros Hw Hj s'. split; [apply widget_run_handler; assumption|].
  unfold s', run_handler. cbn [h_event h_thiz h_wrapper].
  set (s1 := with_el (addClass "selected" (add (prevAll [j :: r]) [j :: r])) s).
  set (s2 := with_el (fun e => removeClass "selected" (nextAll e [j :: r]) e) s1).
  assert (widget a w n s2) as Hw2.
  { apply widget_with_el; [apply skeleton_removeClass|].
    apply widget_with_el; [apply skeleton_addClass | assumption]. }
  split.
  - rewrite get_count_set_count by apply (wd_heap _ _ _ _ Hw2).
    rewrite (find_stars _ _ _ _ Hw2). unfold index.
    rewrite index_from_notin; [reflexivity|].
    intros H. apply in_map_iff in H as (x & E & _). simpl in E. congruence.
  - intros c x. change (el (set_count _ _ s2)) with (el s2).
    apply (select_nothing w [j :: r] (el s) c x).
    intros m [<-|[]]. left. intros E.
    assert (j :: r = parent (j :: r) ++ [position (j :: r)]) as Ep
      by (apply path_snoc; discriminate).
    rewrite E in Ep. simpl in Ep. congruence.
Qed.

Lemma fold_click_outside a w n j r : forall k s,
  widget a w n s -> j <> w ->
  let s' := fold_left (fun s2 h => run_handler h (j :: r) s2)
              (replicate (S k) {| h_event := Click; h_thiz := a; h_wrapper := [w] |}) s in
  widget a w n s' /\
  get_count a s' = Num 0 /\
  forall c x, marked c [w; x] (el s') = marked c [w; x] (el s).
Proof.
  induction k as [|k IH]; intros s Hw Hj.
  - exact (run_click_outside a w n s j r Hw Hj).
  - cbn [replicate fold_left].
    destruct (run_click_outside a w n s j r Hw Hj) as (Hw1 & _ & Hm1).
    destruct (IH _ Hw1 Hj) as (Hw2 & Hc2 & Hm2).
    cbn [replicate fold_left] in Hw2, Hc2, Hm2.
    split; [assumption|]. split; [assumption|].
    intros c x. rewrite Hm2. apply Hm1.
Qed.

Lemma trigger_click_outside a w n k s j (matched : list (list nat)) :
  n = S k -> j <> w ->
  (forall p, In p matched -> exists r, p = j :: r) ->
  matched <> [] ->
  forall s, widget a w n s ->
  let s' := fold_left
      (fun s1 this =>
         fold_left (fun s2 h => run_handler h this s2)
           (replicate n {| h_event := Click; h_thiz := a; h_wrapper := [w] |}) s1)
      matched s in
  widget a w n s' /\
  get_count a s' = Num 0 /\
  forall c x, marked c [w; x] (el s') = marked c [w; x] (el s).
Proof.
  intros -> Hj. induction matched as [|p ps IH]; intros Hhd Hne s0 Hw;
    [contradiction|].
  destruct (Hhd p) as [r ->]; [left; reflexivity|].
  cbn [fold_left].
  destruct (fold_click_outside a w (S k) j r k s0 Hw Hj) as (Hw1 & Hc1 & Hm1).
  destruct ps as [|p' ps'].
  - simpl. auto.
  - destruct (IH (fun q Hq => Hhd q (or_intror Hq)) ltac:(discriminate) _ Hw1)
      as (Hw2 & Hc2 & Hm2).
    split; [assumption|]. split; [assumption|].
    intros c x. rewrite Hm2. apply Hm1.
Qed.

End Outside.

(** X13. The click handler is delegated to every [li] below the
    container, but takes the rating from the position of the clicked [li]
    in the widget's own list. A click on an [li] that the container holds
    outside that list is not found there: [index] gives -1, the rating
    becomes 0 and [get()] returns 0, while the marks of the stars stay as
    they were. *)
Theorem click_outside_list_sets_zero (c : node) (ops : list op)
    (j : nat) (rest : list nat) (nd : node) :
  let s := run ops (fresh c) in
  initialized s = true ->
  (1 <= star_count s)%Z ->
  wrapper s <> Some [j] ->
  node_at (j :: rest) (el s) = Some nd ->
  tag nd = "li" ->
  let s' := click (j :: rest) s in
  call_get s' = Normal (Value (Num 0)) /\
  forall cls, marks cls s' = marks cls s.
Proof.
  intros s Hi Hn Hwr Hnd Htag s'.
  destruct (initialized_widget s (wf_run ops _ (wf_fresh c)) Hi) as (a & w & k & Hw & Hk).
  assert (j <> w) as Hj.
  { intros ->. apply Hwr. apply (wrapper_widget _ _ _ _ Hw). lia. }
  destruct k as [|k']; [lia|].
  set (matched := List.filter (matches (el s) (Tag "li")) (bubble (j :: rest))).
  assert (s' = fold_left
      (fun s1 this =>
         fold_left (fun s2 h => run_handler h this s2)
           (replicate (S k') {| h_event := Click; h_thiz := a; h_wrapper := [w] |}) s1)
      matched s) as Es.
  { unfold s', click, trigger. rewrite Hnd, (wd_events _ _ _ _ Hw), filter_handlers.
    reflexivity. }
  destruct (trigger_click_outside a w (S k') k' s j matched eq_refl Hj) with (s := s)
    as (Hw' & Hc & Hm).
  - intros p Hp. apply filter_In in Hp as [Hp _]. unfold bubble in Hp.
    apply in_rev in Hp. eapply in_prefixes_head. eassumption.
  - assert (In (j :: rest) matched) as Hin.
    { apply filter_In. split.
      - unfold bubble. apply -> in_rev. apply in_prefixes_self. discriminate.
      - rewrite matches_tag, Hnd, Htag. reflexivity. }
    intros E. rewrite E in Hin. destruct Hin.
  - assumption.
  - rewrite <- Es in Hw', Hc, Hm. split.
    + rewrite (call_get_widget _ _ _ _ Hw'), Hc. reflexivity.
    + intros cls. rewrite (marks_widget _ _ _ _ _ Hw'), (marks_widget _ _ _ _ _ Hw).
      apply map_ext. intros x. apply Hm.
Qed.

Lemma click_outside_list_sets_zero_witness :
  let s := run [Call (JObj (Some (Count 3 eq_refl))) []; Call (JStr "set") [2%Z]]
               (fresh (div [Elem "ol" [] [Elem "li" [] []]])) in
  call_get s = Normal (Value (Num 2)) /\
  call_get (click [0; 0] s) = Normal (Value (Num 0)) /\
  marks "selected" (click [0; 0] s) = [true; true; false].
Proof.
  split; [reflexivity|].
  destruct (click_outside_list_sets_zero (div [Elem "ol" [] [Elem "li" [] []]])
    [Call (JObj (Some (Count 3 eq_refl))) []; Call (JStr "set") [2%Z]] 0 [0] (Elem "li" [] []))
    as [H1 H2].
  - reflexivity.
  - vm_compute. discriminate.
  - vm_compute. discriminate.
  - reflexivity.
  - reflexivity.
  - split; [exact H1 | rewrite H2; reflexivity].
Defined.

Section Once.

Implicit Types (s : page) (a : addr) (p q : list nat) (t : node)
  (g : list string -> list string).

Lemma alter_alter_same {A} (f f' : A -> A) : forall i (l : list A),
  alter f i (alter f' i l) = alter (fun x => f (f' x)) i l.
Proof.
  induction i as [|i IH]; intros [|x l]; simpl; try reflexivity.
  f_equal. apply IH.
Qed.

Lemma alter_alter_ne {A} (f f' : A -> A) : forall i j (l : list A),
  i <> j -> alter f i (alter f' j l) = alter f' j (alter f i l).
Proof.
  induction i as [|i IH]; intros [|j] [|x l] Hne; simpl; try reflexivity;
    try contradiction.
  f_equal. apply IH. congruence.
Qed.

Lemma alter_at_ext g g' : forall p t,
  (forall cs, g cs = g' cs) ->
  alter_at (set_classes g) p t = alter_at (set_classes g') p t.
Proof.
  induction p as [|i p IH]; intros t Hg; simpl.
  - unfold set_classes. rewrite Hg. reflexivity.
  - f_equal. apply list_alter_ext; [|reflexivity]. intros x _. apply IH, Hg.
Qed.

(** Two class operations commute unless they hit the same element with
    operations that do not commute. *)
Lemma alter_at_comm g g' : forall p q t,
  (p = q -> forall cs, g (g' cs) = g' (g cs)) ->
  alter_at (set_classes g) p (alter_at (set_classes g') q t) =
  alter_at (set_classes g') q (alter_at (set_classes g) p t).
Proof.
  induction p as [|i p IH]; intros [|j q] t H; simpl.
  - unfold set_classes. simpl. rewrite H by reflexivity. reflexivity.
  - reflexivity.
  - reflexivity.
  - f_equal. destruct (decide (i = j)) as [->|Hne].
    + rewrite !alter_alter_same. apply list_alter_ext; [|reflexivity].
      intros x _. apply IH. intros ->. apply H. reflexivity.
    + apply alter_alter_ne. assumption.
Qed.

Lemma alter_at_idem g : forall p t,
  (forall cs, g (g cs) = g cs) ->
  alter_at (set_classes g) p (alter_at (set_classes g) p t) =
  alter_at (set_classes g) p t.
Proof.
  induction p as [|i p IH]; intros t Hg; simpl.
  - unfold set_classes. simpl. rewrite Hg. reflexivity.
  - f_equal. rewrite alter_alter_same. apply list_alter_ext; [|reflexivity].
    intros x _. apply IH, Hg.
Qed.

Lemma on_collection_cons g p (P : list (list nat)) t :
  on_collection g (p :: P) t = on_collection g P (alter_at (set_classes g) p t).
Proof. reflexivity. Qed.

Lemma on_collection_alter_comm g g' q (P : list (list nat)) : forall t,
  (forall p, In p P -> p = q -> forall cs, g (g' cs) = g' (g cs)) ->
  on_collection g P (alter_at (set_classes g') q t) =
  alter_at (set_classes g') q (on_collection g P t).
Proof.
  induction P as [|p P IH]; intros t H; [reflexivity|].
  rewrite !on_collection_cons.
  rewrite alter_at_comm by (intros Epq; apply (H p); [left; reflexivity | exact Epq]).
  apply IH. intros p' Hp'. apply (H p'). right. assumption.
Qed.

Lemma on_collection_comm g g' (P Q : list (list nat)) : forall t,
  (forall p, In p P -> In p Q -> forall cs, g (g' cs) = g' (g cs)) ->
  on_collection g P (on_collection g' Q t) =
  on_collection g' Q (on_collection g P t).
Proof.
  induction Q as [|q Q IH]; intros t H; [reflexivity|].
  rewrite !on_collection_cons.
  rewrite <- on_collection_alter_comm.
  - apply IH. intros p Hp Hq. apply (H p); [assumption | right; assumption].
  - intros p Hp ->. apply (H q); [assumption | left; reflexivity].
Qed.

Lemma on_collection_idem g (P : list (list nat)) : forall t,
  (forall cs, g (g cs) = g cs) ->
  on_collection g P (on_collection g P t) = on_collection g P t.
Proof.
  induction P as [|p P IH]; intros t Hg; [reflexivity|].
  rewrite !on_collection_cons.
  rewrite <- (on_collection_alter_comm g g p P (alter_at (set_classes g) p t))
    by (intros; reflexivity).
  rewrite IH by assumption.
  rewrite alter_at_idem by assumption. reflexivity.
Qed.

Lemma add_class_idem c cs : add_class c (add_class c cs) = add_class c cs.
Proof.
  unfold add_class at 1. rewrite has_class_add_same. reflexivity.
Qed.

Lemma remove_class_idem c cs : remove_class c (remove_class c cs) = remove_class c cs.
Proof.
  unfold remove_class. induction cs as [|x cs IH]; simpl; [reflexivity|].
  destruct (negb (String.eqb c x)) eqn:E; simpl; [rewrite E, IH|]; auto.
Qed.

(** [nextAll] looks at the shape only. *)
Lemma nextAll_skeleton t t' (L : list (list nat)) :
  skeleton t = skeleton t' -> nextAll t L = nextAll t' L.
Proof.
  intros E. unfold nextAll. apply flat_map_ext. intros p. unfold nextAll1.
  destruct p as [|x p']; [reflexivity|].
  pose proof (skeleton_node_at (parent (x :: p')) t t' E) as H.
  destruct (node_at (parent (x :: p')) t) as [par|],
           (node_at (parent (x :: p')) t') as [par'|];
    simpl in H; try discriminate H; [|reflexivity].
  injection H as H. apply skeleton_children in H.
  apply (f_equal (@length skel)) in H. rewrite !length_map in H.
  rewrite H. reflexivity.
Qed.

Lemma prev_next_disjoint t this p :
  In p (add (prevAll [this]) [this]) -> In p (nextAll t [this]) -> False.
Proof.
  unfold add, prevAll, nextAll. simpl. rewrite !app_nil_r.
  intros Hp Hn. unfold nextAll1 in Hn.
  destruct this as [|x r]; [destruct Hn|].
  set (this := x :: r) in *.
  destruct (node_at (parent this) t) as [par|]; [|destruct Hn].
  apply in_map_iff in Hn as (y & <- & Hy). apply in_seq in Hy.
  apply in_app_or in Hp as [Hp|[Hp|[]]].
  - unfold prevAll1 in Hp. apply in_map_iff in Hp as (z & E & Hz).
    apply in_seq in Hz. apply app_inj_tail in E as [_ ->]. lia.
  - rewrite (path_snoc this) in Hp at 1 by discriminate.
    apply app_inj_tail in Hp as [_ Hp]. lia.
Qed.

(** The selection pattern of the click handler, applied twice, is the
    pattern applied once. *)
Lemma select_idem this t :
  let E := fun u =>
    removeClass "selected"
      (nextAll (addClass "selected" (add (prevAll [this]) [this]) u) [this])
      (addClass "selected" (add (prevAll [this]) [this]) u) in
  E (E t) = E t.
Proof.
  intros E. unfold E.
  set (P := add (prevAll [this]) [this]).
  assert (nextAll (addClass "selected" P t) [this] = nextAll t [this]) as ->
    by apply nextAll_skeleton, skeleton_addClass.
  set (N := nextAll t [this]).
  assert (nextAll (addClass "selected" P
            (removeClass "selected" N (addClass "selected" P t))) [this] = N) as ->.
  { apply nextAll_skeleton.
    rewrite skeleton_addClass, skeleton_removeClass, skeleton_addClass. reflexivity. }
  change (addClass "selected") with (on_collection (add_class "selected")).
  change (removeClass "selected") with (on_collection (remove_class "selected")).
  rewrite (on_collection_comm (add_class "selected") (remove_class "selected") P N).
  - rewrite (on_collection_idem (add_class "selected")) by apply add_class_idem.
    rewrite (on_collection_idem (remove_class "selected")) by apply remove_class_idem.
    reflexivity.
  - intros p Hp Hn. exfalso. eapply prev_next_disjoint; eassumption.
Qed.

Lemma set_count_twice a v v' s :
  set_count a v (set_count a v' s) = set_count a v s.
Proof.
  unfold set_count. cbn [el data events heap]. f_equal.
  rewrite alter_alter_same. reflexivity.
Qed.

(** Running a handler a second time for the same element changes
    nothing. *)
Lemma run_handler_idem h this s :
  run_handler h this (run_handler h this s) = run_handler h this s.
Proof.
  unfold run_handler. destruct (h_event h).
  - unfold with_el. cbn [el data events heap]. f_equal.
    apply (on_collection_idem (add_class "hover")), add_class_idem.
  - unfold with_el. cbn [el data events heap]. f_equal.
    set (P := add (prevAll [this]) [this]).
    change (removeClass "hover") with (on_collection (remove_class "hover")).
    set (R := on_collection (remove_class "hover")).
    assert (forall u u', skeleton u = skeleton u' ->
              add (nextAll u [this]) [this] = add (nextAll u' [this]) [this]) as HN.
    { intros u u' Eu. unfold add. f_equal. apply nextAll_skeleton. assumption. }
    assert (forall coll u, skeleton (R coll u) = skeleton u) as HR
      by (intros; apply skeleton_on_collection).
    rewrite (HN (R P (R (add (nextAll (R P (el s)) [this]) [this]) (R P (el s))))
                (el s)) by (rewrite !HR; reflexivity).
    rewrite (HN (R P (el s)) (el s)) by (rewrite !HR; reflexivity).
    set (N := add (nextAll (el s) [this]) [this]).
    unfold R.
    rewrite (on_collection_comm (remove_class "hover") (remove_class "hover") P N)
      by (intros; reflexivity).
    rewrite (on_collection_idem _ N) by apply remove_class_idem.
    rewrite (on_collection_idem _ P) by apply remove_class_idem. reflexivity.
  - pose proof (select_idem this (el s)) as HE. cbv beta zeta in HE.
    unfold with_el, set_count. cbn [el data events heap]. rewrite HE.
    f_equal. rewrite alter_alter_same. reflexivity.
Qed.

Lemma fold_replicate_idem h this : forall k s,
  fold_left (fun s2 h' => run_handler h' this s2) (replicate (S k) h) s =
  run_handler h this s.
Proof.
  induction k as [|k IH]; intros s; [reflexivity|].
  cbn [replicate fold_left]. cbn [replicate fold_left] in IH.
  rewrite IH. apply run_handler_idem.
Qed.

End Once.

(** X14. [_build] binds its three handlers once per turn of the loop, so
    every pointer event runs the same handler [starCount] times for each
    [li] it bubbles through. The repetition is harmless: the handlers are
    idempotent, and an event leaves the page exactly as one handler per
    [li] would. *)
Theorem repeated_handlers_act_once (c : node) (ops : list op) (ev : event)
    (target : list nat) (a : nat) (ul : list nat) :
  let s := run ops (fresh c) in
  data s = Some a ->
  wrapper s = Some ul ->
  trigger ev target s =
  match node_at target (el s) with
  | None => s
  | Some _ =>
      fold_left
        (fun s1 this =>
           run_handler {| h_event := ev; h_thiz := a; h_wrapper := ul |} this s1)
        (List.filter (matches (el s) (Tag "li")) (bubble target)) s
  end.
Proof.
  intros s Hd Hul.
  pose proof (wf_run ops _ (wf_fresh c)) as Hwf. fold s in Hwf.
  unfold wf in Hwf. rewrite Hd in Hwf. destruct Hwf as (w & n & Hw).
  unfold wrapper in Hul. rewrite (wd_events _ _ _ _ Hw) in Hul.
  destruct n as [|k]; [discriminate Hul|].
  cbn in Hul. injection Hul as <-.
  unfold trigger. destruct (node_at target (el s)); [|reflexivity].
  rewrite (wd_events _ _ _ _ Hw), filter_handlers.
  generalize (List.filter (matches (el s) (Tag "li")) (bubble target)).
  intros matched. generalize s.
  induction matched as [|m ms IH]; intros s0; [reflexivity|].
  cbn [fold_left]. rewrite fold_replicate_idem. apply IH.
Qed.

Lemma repeated_handlers_act_once_witness :
  let s := run [Call (JObj (Some (Count 3 eq_refl))) []] (fresh (div [])) in
  length (List.filter (fun h => event_eqb (h_event h) Click) (events s)) = 3 /\
  trigger Click [0; 1; 0] s =
  run_handler {| h_event := Click; h_thiz := 0; h_wrapper := [0] |} [0; 1] s.
Proof.
  split; [reflexivity|].
  exact (repeated_handlers_act_once (div []) [Call (JObj (Some (Count 3 eq_refl))) []]
           Click [0; 1; 0] 0 [0] eq_refl eq_refl).
Defined.

Section Bounds.

Implicit Types (s : page) (a : addr) (w n : nat).

Lemma index_from_bounds (x : list nat) : forall l z,
  index_from z x l = (-1)%Z \/
  (z <= index_from z x l < z + Z.of_nat (length l))%Z.
Proof.
  induction l as [|y l IH]; intros z; simpl; [left; reflexivity|].
  case_decide as E.
  - right. lia.
  - destruct (IH (z + 1)%Z) as [->|Hb]; [left; reflexivity | right; lia].
Qed.

(** Whatever [li] the click handler runs for, the rating it records lies
    between 0 and the number of stars. *)
Lemma run_click_bounded a w n s this :
  widget a w n s ->
  exists k,
    get_count a (run_handler {| h_event := Click; h_thiz := a; h_wrapper := [w] |}
                             this s) = Num k /\
    (0 <= k <= Z.of_nat n)%Z.
Proof.
  intros Hw. unfold run_handler. cbn [h_event h_thiz h_wrapper].
  set (s1 := with_el (addClass "selected" (add (prevAll [this]) [this])) s).
  set (s2 := with_el (fun e => removeClass "selected" (nextAll e [this]) e) s1).
  assert (widget a w n s2) as Hw2.
  { apply widget_with_el; [apply skeleton_removeClass|].
    apply widget_with_el; [apply skeleton_addClass | assumption]. }
  rewrite get_count_set_count by apply (wd_heap _ _ _ _ Hw2).
  eexists. split; [reflexivity|].
  rewrite (find_stars _ _ _ _ Hw2). unfold index.
  destruct (index_from_bounds this (map (fun j => [w] ++ [j]) (seq 0 n)) 0) as [->|H];
    [lia|].
  rewrite length_map, length_seq in H. lia.
Qed.

End Bounds.

(** X15. A click anywhere in the container of an initialized widget
    either leaves the rating as it was (no [li] under the pointer) or
    records a number between 0 and [starCount]: a click cannot push the
    rating above the number of stars, but it can make it 0. *)
Theorem click_rating_bounded (c : node) (ops : list op) (target : list nat) :
  let s := run ops (fresh c) in
  initialized s = true ->
  let s' := click target s in
  call_get s' = call_get s \/
  exists k, call_get s' = Normal (Value (Num k)) /\ (0 <= k <= star_count s)%Z.
Proof.
  intros s Hi s'.
  destruct (initialized_widget s (wf_run ops _ (wf_fresh c)) Hi) as (a & w & n & Hw & Hk).
  pose proof (widget_trigger a w n Click target s Hw) as Hw'.
  fold (click target s) in Hw'. fold s' in Hw'.
  rewrite (call_get_widget _ _ _ _ Hw'), (call_get_widget _ _ _ _ Hw).
  assert (get_count a s' = get_count a s \/
          exists k, get_count a s' = Num k /\ (0 <= k <= Z.of_nat n)%Z /\ 1 <= n) as H.
  { unfold s', click, trigger. destruct (node_at target (el s)); [|left; reflexivity].
    rewrite (wd_events _ _ _ _ Hw), filter_handlers.
    destruct n as [|n']; [left|].
    - simpl. induction (List.filter _ (bubble target)) as [|m ms IH];
        [reflexivity | assumption].
    - generalize (List.filter (matches (el s) (Tag "li")) (bubble target)).
      intros matched. generalize s Hw.
      induction matched as [|m ms IH]; intros s0 Hw0; [left; reflexivity|].
      cbn [fold_left]. rewrite fold_replicate_idem.
      pose proof (widget_run_handler a w (S n')
        {| h_event := Click; h_thiz := a; h_wrapper := [w] |} m s0 Hw0) as Hw1.
      destruct (IH _ Hw1) as [E|E]; [|right; assumption].
      right. rewrite E.
      destruct (run_click_bounded a w (S n') s0 m Hw0) as (k & Ek & Hb).
      exists k. split; [assumption|]. split; [assumption | lia]. }
  destruct H as [->|(k & -> & Hb & Hn)]; [left; reflexivity|].
  right. exists k. split; [reflexivity | lia].
Qed.

Lemma click_rating_bounded_witness :
  let s := run [Call (JObj (Some (Count 3 eq_refl))) []; Call (JStr "set") [8%Z]]
               (fresh (div [Elem "p" [] []])) in
  call_get s = Normal (Value (Num 8)) /\
  (call_get (click [0] s) = call_get s \/
   exists k, call_get (click [0] s) = Normal (Value (Num k)) /\ (0 <= k <= 3)%Z).
Proof.
  split; [reflexivity|].
  apply (click_rating_bounded (div [Elem "p" [] []])
           [Call (JObj (Some (Count 3 eq_refl))) []; Call (JStr "set") [8%Z]] [0]).
  reflexivity.
Defined.

(** X16. [starCount] is fixed when the instance is constructed: no
    command except ['destroy'] and no pointer event changes the number of
    stars the instance was built with, nor the number of stars in its
    list. *)
Theorem star_count_fixed (c : node) (ops : list op) (x : op) :
  let s := run ops (fresh c) in
  initialized s = true ->
  structural x = false ->
  star_count (step x s) = star_count s /\
  length (stars (step x s)) = length (stars s).
Proof.
  intros s Hi Hx.
  destruct (initialized_widget s (wf_run ops _ (wf_fresh c)) Hi) as (a & w & n & Hw & Hk).
  destruct (step_keeps x s Hx) as (_ & Hd & _ & _).
  assert (star_count (step x s) = star_count s) as Hsc.
  { unfold star_count. rewrite Hd, (wd_data _ _ _ _ Hw).
    destruct x as [o args|ev target]; [|apply get_starCount_trigger].
    destruct o as [| |k|name|k]; try discriminate Hx; [reflexivity|].
    cbn [step].
    destruct (starRating_str_cases name args s) as [->|(a' & m & v & _ & _ & Hp & E)];
      [reflexivity|].
    eapply get_starCount_apply; eassumption. }
  split; [assumption|].
  pose proof (wf_step x s (wf_run ops _ (wf_fresh c))) as Hwf'.
  unfold wf in Hwf'. rewrite Hd, (wd_data _ _ _ _ Hw) in Hwf'.
  destruct Hwf' as (w' & n' & Hw').
  rewrite (length_stars _ _ _ _ Hw'), (length_stars _ _ _ _ Hw).
  rewrite <- (wd_count _ _ _ _ Hw'), <- (star_count_widget _ _ _ _ Hw'), Hsc.
  assumption.
Qed.

Lemma star_count_fixed_witness :
  let s := run [Call (JObj (Some (Count 3 eq_refl))) []] (fresh (div [])) in
  star_count (step (Call (JStr "set") [7%Z]) s) = 3%Z /\
  length (stars (step (Call (JStr "set") [7%Z]) s)) = 3.
Proof.
  destruct (star_count_fixed (div []) [Call (JObj (Some (Count 3 eq_refl))) []]
              (Call (JStr "set") [7%Z])) as [H1 H2].
  - reflexivity.
  - reflexivity.
  - split; [rewrite H1; reflexivity | rewrite H2; reflexivity].
Defined.

(** X17. The number of stars comes from the loop bound [i < starCount]:
    without a [starCount] option it is 5, and a [starCount] of zero or
    less builds an empty list and binds no handler, so that no pointer
    event has any effect on such a widget. *)
Theorem create_star_count (c : node) (ops : list op) (o : jsval) :
  let s := run ops (fresh c) in
  initialized s = false ->
  is_options o = true ->
  let k := match o with JObj (Some k) => count_val k | _ => 5%Z end in
  let s' := create o s in
  star_count s' = k /\
  length (stars s') = Z.to_nat k /\
  ((k <= 0)%Z ->
     events s' = [] /\ forall ev target, trigger ev target s' = s').
Proof.
  intros s Hi Ho k s'.
  pose proof (wf_run ops _ (wf_fresh c)) as Hwf. fold s in Hwf.
  unfold wf in Hwf. unfold initialized in Hi.
  destruct (data s) eqn:Hd; [discriminate|].
  assert (s' = created o s) as ->.
  { unfold s', create. rewrite starRating_create by assumption. reflexivity. }
  pose proof (widget_created o s Hwf) as Hw.
  assert (starCount (extend defaults o) = k) as Ek
    by (destruct o as [| | | |[?|]]; reflexivity).
  rewrite Ek in Hw.
  assert (star_count (created o s) = k) as Hsc.
  { rewrite (star_count_widget _ _ _ _ Hw). unfold get_starCount, created.
    cbn [heap]. rewrite lookup_app_r by lia. rewrite Nat.sub_diag. exact Ek. }
  split; [assumption|]. split; [apply (length_stars _ _ _ _ Hw)|].
  intros Hk.
  assert (events (created o s) = []) as He.
  { rewrite (wd_events _ _ _ _ Hw). replace (Z.to_nat k) with 0 by lia. reflexivity. }
  split; [assumption|]. intros ev target. apply trigger_no_handlers. assumption.
Qed.

Lemma create_star_count_witness :
  length (stars (create JNull (fresh (div [])))) = 5 /\
  length (stars (create (JObj (Some (Count (-2) eq_refl))) (fresh (div [])))) = 0.
Proof.
  destruct (create_star_count (div []) [] JNull eq_refl eq_refl) as (_ & H1 & _).
  destruct (create_star_count (div []) [] (JObj (Some (Count (-2) eq_refl))) eq_refl eq_refl)
    as (_ & H2 & _).
  split; [exact H1 | exact H2].
Defined.

(** X18. [set(n)] with a number of magnitude 10^21 or more builds its
    selector from the exponent form of [n]; jQuery rejects it, so the call
    raises before any class is touched and before the rating is assigned:
    the page, and with it what [get()] returns, is exactly as before. *)
Theorem set_exponent_form_raises (s : page) (n : Z) :
  initialized s = true ->
  (exponent_form <= Z.abs n)%Z ->
  starRating (JStr "set") [n] s = (Throw SelectorError, s).
Proof.
  intros Hi Hn. unfold initialized in Hi.
  destruct (data s) as [a|] eqn:Hd; [|discriminate].
  rewrite (starRating_set a) by assumption.
  unfold _setStarCount. rewrite (nth_of_type_li_large n Hn). reflexivity.
Qed.

Lemma set_exponent_form_raises_witness :
  let s := call_set 3 (create JUndefined (fresh (div []))) in
  starRating (JStr "set") [(- 10 ^ 22)%Z] s = (Throw SelectorError, s).
Proof.
  apply (set_exponent_form_raises
           (call_set 3 (create JUndefined (fresh (div [])))) (- 10 ^ 22)%Z).
  - reflexivity.
  - vm_compute. discriminate.
Defined.
